(** * CrowdTaskZ: the encrypted-task ledger contract

    A shallow embedding of the Solidity contract [CrowdTaskZ] and the
    properties of its task life cycle.  Storage is a record of finite maps
    (a Solidity mapping read at a missing key gives the zero value), a
    function body is a computation in a state-and-revert monad that follows
    the statements of the source in order, and a transaction either commits
    the state its body produced or reverts to the state it started from. *)

From Stdlib Require Import ZArith String List Lia.
From Stdlib.Strings Require Import Byte.
From stdpp Require Import gmap strings list.

Local Open Scope Z_scope.

(** ** Value types *)

Definition address : Type := Z.
Definition uint256 : Type := Z.
Definition bytes32 : Type := Z.
Definition bytes : Type := list Byte.byte.
(** [euint32] and [externalEuint32] are user-defined value types over
    [bytes32]: a handle to a ciphertext, never the ciphertext itself. *)
Definition euint32 : Type := bytes32.
Definition externalEuint32 : Type := bytes32.

Definition MAX_UINT256 : Z := 2 ^ 256 - 1.

(** ** Structs *)

Record Task : Type := mkTask {
  title : string;
  encryptedData : euint32;
  rewardAmount : uint256;
  deadline : uint256;
  requester : address;
  isActive : bool;
  isCompleted : bool
}.

Record Worker : Type := mkWorker {
  workerAddress : address;
  reputation : uint256;
  completedTasks : uint256
}.

(** The value a mapping returns for a key never written. *)
Definition zeroTask : Task := mkTask EmptyString 0 0 0 0 false false.
Definition zeroWorker : Worker := mkWorker 0 0 0.

Definition set_isCompleted (b : bool) (t : Task) : Task :=
  mkTask (title t) (encryptedData t) (rewardAmount t) (deadline t)
         (requester t) (isActive t) b.
Definition set_isActive (b : bool) (t : Task) : Task :=
  mkTask (title t) (encryptedData t) (rewardAmount t) (deadline t)
         (requester t) b (isCompleted t).
Definition set_completedTasks (n : uint256) (w : Worker) : Worker :=
  mkWorker (workerAddress w) (reputation w) n.
Definition set_reputation (n : uint256) (w : Worker) : Worker :=
  mkWorker (workerAddress w) n (completedTasks w).

(** ** Events and access-control grants

    The three events the contract declares, and the event
    [PublicDecryptionVerified] that [FHE.checkSignatures] emits from the
    calling contract when the signatures verify. *)

Inductive Event : Type :=
| TaskCreated (taskId : string) (requester : address)
| TaskAssigned (taskId : string) (worker : address)
| TaskCompleted (taskId : string) (worker : address)
| PublicDecryptionVerified (handlesList : list bytes32) (abiEncodedCleartexts : bytes).

(** The two calls [createTask] makes to the access-control list of the
    encryption library, kept as a log. *)
Inductive Grant : Type :=
| AllowThis (h : euint32)
| MakePubliclyDecryptable (h : euint32).

(** ** Reverts

    One constructor per [require] message of the contract, one for a revert
    raised inside the encryption library, and one for the arithmetic panic
    of checked [uint256] addition. *)
Inductive Error : Type :=
| TaskAlreadyExists
| InvalidEncryptedInput
| WorkerAlreadyRegistered
| TaskDoesNotExist
| TaskIsNotActive
| TaskAlreadyAssigned
| WorkerNotRegistered
| NotAssignedToThisWorker
| TaskAlreadyCompleted
| TaskDeadlinePassed
| InputVerificationReverted
| InvalidKMSSignatures
| PanicOverflow.

Definition reason (e : Error) : string :=
  match e with
  | TaskAlreadyExists => "Task already exists"
  | InvalidEncryptedInput => "Invalid encrypted input"
  | WorkerAlreadyRegistered => "Worker already registered"
  | TaskDoesNotExist => "Task does not exist"
  | TaskIsNotActive => "Task is not active"
  | TaskAlreadyAssigned => "Task already assigned"
  | WorkerNotRegistered => "Worker not registered"
  | NotAssignedToThisWorker => "Not assigned to this worker"
  | TaskAlreadyCompleted => "Task already completed"
  | TaskDeadlinePassed => "Task deadline passed"
  | InputVerificationReverted => "input verification reverted"
  | InvalidKMSSignatures => "InvalidKMSSignatures()"
  | PanicOverflow => "Panic(0x11)"
  end%string.

(** ** Contract state *)

Record State : Type := mkState {
  tasks : gmap string Task;
  workers : gmap Z Worker;
  taskAssignments : gmap string Z;
  taskIds : list string;
  workerAddresses : list Z;
  log : list Event;
  acl : list Grant
}.

Definition initial : State := mkState ∅ ∅ ∅ [] [] [] [].

(** Mapping reads, with the zero value at a missing key. *)
Definition taskAt (s : State) (k : string) : Task :=
  default zeroTask (tasks s !! k).
Definition workerAt (s : State) (a : address) : Worker :=
  default zeroWorker (workers s !! a).
Definition assigneeOf (s : State) (k : string) : address :=
  default 0 (taskAssignments s !! k).

Definition with_tasks (f : gmap string Task -> gmap string Task) (s : State) : State :=
  mkState (f (tasks s)) (workers s) (taskAssignments s) (taskIds s)
          (workerAddresses s) (log s) (acl s).
Definition with_workers (f : gmap Z Worker -> gmap Z Worker) (s : State) : State :=
  mkState (tasks s) (f (workers s)) (taskAssignments s) (taskIds s)
          (workerAddresses s) (log s) (acl s).
Definition with_taskAssignments (f : gmap string Z -> gmap string Z) (s : State) : State :=
  mkState (tasks s) (workers s) (f (taskAssignments s)) (taskIds s)
          (workerAddresses s) (log s) (acl s).
Definition with_taskIds (f : list string -> list string) (s : State) : State :=
  mkState (tasks s) (workers s) (taskAssignments s) (f (taskIds s))
          (workerAddresses s) (log s) (acl s).
Definition with_workerAddresses (f : list Z -> list Z) (s : State) : State :=
  mkState (tasks s) (workers s) (taskAssignments s) (taskIds s)
          (f (workerAddresses s)) (log s) (acl s).
Definition with_log (f : list Event -> list Event) (s : State) : State :=
  mkState (tasks s) (workers s) (taskAssignments s) (taskIds s)
          (workerAddresses s) (f (log s)) (acl s).
Definition with_acl (f : list Grant -> list Grant) (s : State) : State :=
  mkState (tasks s) (workers s) (taskAssignments s) (taskIds s)
          (workerAddresses s) (log s) (f (acl s)).

(** ** The state-and-revert monad

    A body that reverts stops at the failing statement; the result keeps the
    storage as it stood there, so that what had been written before the
    failure can be told apart from what the transaction rolls back. *)

Inductive Result (A : Type) : Type :=
| Ok (a : A)
| Revert (e : Error) (dirty : State).
Arguments Ok {A} a.
Arguments Revert {A} e dirty.

Definition M (A : Type) : Type := State -> Result (A * State).

Definition ret {A} (a : A) : M A := fun s => Ok (a, s).
Definition bind {A B} (m : M A) (f : A -> M B) : M B :=
  fun s => match m s with
           | Ok (a, s') => f a s'
           | Revert e d => Revert e d
           end.
Definition revert {A} (e : Error) : M A := fun s => Revert e s.
Definition require (b : bool) (e : Error) : M unit :=
  if b then ret tt else revert e.
Definition gets {A} (f : State -> A) : M A := fun s => Ok (f s, s).
Definition modify (f : State -> State) : M unit := fun s => Ok (tt, f s).

(** What a caller of a view sees. *)
Definition view {A} (m : M A) (s : State) : A + Error :=
  match m s with
  | Ok (a, _) => inl a
  | Revert e _ => inr e
  end.

Declare Scope sol_scope.
Delimit Scope sol_scope with sol.
Notation "x <- m ;; k" := (bind m (fun x => k))
  (at level 100, m at next level, k at level 200, right associativity) : sol_scope.
Notation "m ;; k" := (bind m (fun _ => k))
  (at level 100, k at level 200, right associativity) : sol_scope.
Local Open Scope sol_scope.

(** Checked addition of Solidity 0.8: a result above [MAX_UINT256] panics. *)
Definition checked_add (a b : uint256) : M uint256 :=
  if a + b <=? MAX_UINT256 then ret (a + b) else revert PanicOverflow.

Definition emit (e : Event) : M unit := modify (with_log (fun l => l ++ [e])).

(** ** Transaction environment *)

Record Env : Type := mkEnv {
  msg_sender : address;
  block_timestamp : uint256
}.

(** ** The encryption library

    [FHE.sol] is imported, not part of the contract: its functions are the
    operations of this class.  [fromExternal] verifies an input proof for
    the caller and gives the handle, or reverts ([None]); [checkSignatures]
    is the verdict of the signature check: on [true] the library logs
    [PublicDecryptionVerified] with the handles and the clear values and
    returns, on [false] it reverts. *)
Class FHE : Type := {
  fromExternal : address -> externalEuint32 -> bytes -> option euint32;
  isInitialized : euint32 -> bool;
  toBytes32 : euint32 -> bytes32;
  checkSignatures : list bytes32 -> bytes -> bytes -> bool
}.

Section Contract.
Context {fhe : FHE}.

Definition FHE_fromExternal (sender : address) (e : externalEuint32)
    (inputProof : bytes) : M euint32 :=
  match fromExternal sender e inputProof with
  | Some h => ret h
  | None => revert InputVerificationReverted
  end.

Definition FHE_checkSignatures (cts : list bytes32) (abiEncodedResult proof : bytes)
    : M unit :=
  require (checkSignatures cts abiEncodedResult proof) InvalidKMSSignatures ;;
  emit (PublicDecryptionVerified cts abiEncodedResult).

Definition FHE_allowThis (h : euint32) : M unit :=
  modify (with_acl (fun l => l ++ [AllowThis h])).
Definition FHE_makePubliclyDecryptable (h : euint32) : M unit :=
  modify (with_acl (fun l => l ++ [MakePubliclyDecryptable h])).

(** *** Mutating entry points *)

Definition createTask (env : Env) (taskId title' : string)
    (encryptedData' : externalEuint32) (inputProof : bytes)
    (rewardAmount' deadline' : uint256) : M unit :=
  t <- gets (fun s => taskAt s taskId) ;;
  require (String.length (title t) =? 0)%nat TaskAlreadyExists ;;
  h <- FHE_fromExternal (msg_sender env) encryptedData' inputProof ;;
  require (isInitialized h) InvalidEncryptedInput ;;
  h' <- FHE_fromExternal (msg_sender env) encryptedData' inputProof ;;
  modify (with_tasks (insert taskId
    (mkTask title' h' rewardAmount' deadline' (msg_sender env) true false))) ;;
  t1 <- gets (fun s => taskAt s taskId) ;;
  FHE_allowThis (encryptedData t1) ;;
  t2 <- gets (fun s => taskAt s taskId) ;;
  FHE_makePubliclyDecryptable (encryptedData t2) ;;
  modify (with_taskIds (fun l => l ++ [taskId])) ;;
  emit (TaskCreated taskId (msg_sender env)).

Definition registerWorker (env : Env) : M unit :=
  w <- gets (fun s => workerAt s (msg_sender env)) ;;
  require (workerAddress w =? 0) WorkerAlreadyRegistered ;;
  modify (with_workers (insert (msg_sender env)
    (mkWorker (msg_sender env) 0 0))) ;;
  modify (with_workerAddresses (fun l => l ++ [msg_sender env])).

Definition assignTask (env : Env) (taskId : string) : M unit :=
  t <- gets (fun s => taskAt s taskId) ;;
  require (0 <? String.length (title t))%nat TaskDoesNotExist ;;
  t <- gets (fun s => taskAt s taskId) ;;
  require (isActive t) TaskIsNotActive ;;
  a <- gets (fun s => assigneeOf s taskId) ;;
  require (a =? 0) TaskAlreadyAssigned ;;
  w <- gets (fun s => workerAt s (msg_sender env)) ;;
  require (negb (workerAddress w =? 0)) WorkerNotRegistered ;;
  modify (with_taskAssignments (insert taskId (msg_sender env))) ;;
  emit (TaskAssigned taskId (msg_sender env)).

Definition submitTaskResult (env : Env) (taskId : string)
    (abiEncodedResult computationProof : bytes) : M unit :=
  t <- gets (fun s => taskAt s taskId) ;;
  require (0 <? String.length (title t))%nat TaskDoesNotExist ;;
  a <- gets (fun s => assigneeOf s taskId) ;;
  require (a =? msg_sender env) NotAssignedToThisWorker ;;
  t <- gets (fun s => taskAt s taskId) ;;
  require (negb (isCompleted t)) TaskAlreadyCompleted ;;
  t <- gets (fun s => taskAt s taskId) ;;
  require (block_timestamp env <=? deadline t) TaskDeadlinePassed ;;
  t <- gets (fun s => taskAt s taskId) ;;
  FHE_checkSignatures [toBytes32 (encryptedData t)] abiEncodedResult computationProof ;;
  modify (fun s => with_tasks (insert taskId (set_isCompleted true (taskAt s taskId))) s) ;;
  modify (fun s => with_tasks (insert taskId (set_isActive false (taskAt s taskId))) s) ;;
  w <- gets (fun s => workerAt s (msg_sender env)) ;;
  c <- checked_add (completedTasks w) 1 ;;
  modify (fun s => with_workers (insert (msg_sender env)
    (set_completedTasks c (workerAt s (msg_sender env)))) s) ;;
  w <- gets (fun s => workerAt s (msg_sender env)) ;;
  r <- checked_add (reputation w) 10 ;;
  modify (fun s => with_workers (insert (msg_sender env)
    (set_reputation r (workerAt s (msg_sender env)))) s) ;;
  emit (TaskCompleted taskId (msg_sender env)).

(** *** Views *)

Definition getTask (taskId : string)
    : M (string * uint256 * uint256 * address * bool * bool) :=
  t <- gets (fun s => taskAt s taskId) ;;
  require (0 <? String.length (title t))%nat TaskDoesNotExist ;;
  task <- gets (fun s => taskAt s taskId) ;;
  ret (title task, rewardAmount task, deadline task, requester task,
       isActive task, isCompleted task).

Definition getWorker (a : address) : M (uint256 * uint256) :=
  w <- gets (fun s => workerAt s a) ;;
  require (negb (workerAddress w =? 0)) WorkerNotRegistered ;;
  worker <- gets (fun s => workerAt s a) ;;
  ret (reputation worker, completedTasks worker).

Definition getAllTaskIds : M (list string) := gets taskIds.
Definition getAllWorkers : M (list address) := gets workerAddresses.
Definition isAvailable : bool := true.

(** *** Transactions *)

Inductive Call : Type :=
| CreateTask (taskId title' : string) (encryptedData' : externalEuint32)
    (inputProof : bytes) (rewardAmount' deadline' : uint256)
| RegisterWorker
| AssignTask (taskId : string)
| SubmitTaskResult (taskId : string) (abiEncodedResult computationProof : bytes).

Definition dispatch (env : Env) (c : Call) : M unit :=
  match c with
  | CreateTask k t e p r d => createTask env k t e p r d
  | RegisterWorker => registerWorker env
  | AssignTask k => assignTask env k
  | SubmitTaskResult k r p => submitTaskResult env k r p
  end.

(** A transaction commits the state its body ends in, or reverts: every
    write and every event of a reverted body is undone. *)
Definition transact (env : Env) (c : Call) (s : State) : State * option Error :=
  match dispatch env c s with
  | Ok (_, s') => (s', None)
  | Revert e _ => (s, Some e)
  end.

Definition after (env : Env) (c : Call) (s : State) : State := fst (transact env c s).
Definition outcome (env : Env) (c : Call) (s : State) : option Error :=
  snd (transact env c s).

(** The events a transaction adds to the log. *)
Definition emitted (env : Env) (c : Call) (s : State) : list Event :=
  drop (length (log s)) (log (after env c s)).

Fixpoint run (cs : list (Env * Call)) (s : State) : State :=
  match cs with
  | [] => s
  | (env, c) :: cs' => run cs' (after env c s)
  end.

Inductive reachable : State -> Prop :=
| reachable_initial : reachable initial
| reachable_step s env c : reachable s -> reachable (after env c s).

End Contract.

(** ** The state each entry point commits *)

Section Commits.
Context {fhe : FHE}.

Definition createTask_commit (env : Env) (k t : string) (h : euint32)
    (r d : uint256) (s : State) : State :=
  mkState (<[k := mkTask t h r d (msg_sender env) true false]> (tasks s))
          (workers s) (taskAssignments s) (taskIds s ++ [k])
          (workerAddresses s) (log s ++ [TaskCreated k (msg_sender env)])
          (acl s ++ [AllowThis h; MakePubliclyDecryptable h]).

Definition registerWorker_commit (env : Env) (s : State) : State :=
  mkState (tasks s)
          (<[msg_sender env := mkWorker (msg_sender env) 0 0]> (workers s))
          (taskAssignments s) (taskIds s)
          (workerAddresses s ++ [msg_sender env]) (log s) (acl s).

Definition assignTask_commit (env : Env) (k : string) (s : State) : State :=
  mkState (tasks s) (workers s)
          (<[k := msg_sender env]> (taskAssignments s)) (taskIds s)
          (workerAddresses s) (log s ++ [TaskAssigned k (msg_sender env)])
          (acl s).

Definition submitTaskResult_commit (env : Env) (k : string) (res : bytes)
    (s : State) : State :=
  mkState (<[k := set_isActive false (set_isCompleted true (taskAt s k))]> (tasks s))
          (<[msg_sender env :=
               mkWorker (workerAddress (workerAt s (msg_sender env)))
                        (reputation (workerAt s (msg_sender env)) + 10)
                        (completedTasks (workerAt s (msg_sender env)) + 1)]>
             (workers s))
          (taskAssignments s) (taskIds s) (workerAddresses s)
          ((log s ++ [PublicDecryptionVerified
                        [toBytes32 (encryptedData (taskAt s k))] res])
             ++ [TaskCompleted k (msg_sender env)])
          (acl s).

(** State of [submitTaskResult] after the library's event and the two flag
    writes, and after the [completedTasks] increment: where an arithmetic
    panic leaves it. *)
Definition submitTaskResult_flagged (k : string) (res : bytes) (s : State) : State :=
  with_tasks (insert k (set_isActive false (set_isCompleted true (taskAt s k))))
    (with_log (fun l => l ++ [PublicDecryptionVerified
                                [toBytes32 (encryptedData (taskAt s k))] res]) s).
Definition submitTaskResult_counted (env : Env) (k : string) (res : bytes)
    (s : State) : State :=
  with_workers (insert (msg_sender env)
    (set_completedTasks (completedTasks (workerAt s (msg_sender env)) + 1)
       (workerAt s (msg_sender env))))
    (submitTaskResult_flagged k res s).

(** *** What a transaction can do to the state

    Each call either leaves the state as it was (it reverted) or commits
    the state of its entry point, under the conditions its [require]s
    checked. *)

Inductive committed (env : Env) (s : State) : Call -> State -> Prop :=
| committed_createTask k t e p r d h :
    title (taskAt s k) = EmptyString ->
    fromExternal (msg_sender env) e p = Some h ->
    isInitialized h = true ->
    committed env s (CreateTask k t e p r d) (createTask_commit env k t h r d s)
| committed_registerWorker :
    workerAddress (workerAt s (msg_sender env)) = 0 ->
    committed env s RegisterWorker (registerWorker_commit env s)
| committed_assignTask k :
    title (taskAt s k) <> EmptyString ->
    isActive (taskAt s k) = true ->
    assigneeOf s k = 0 ->
    workerAddress (workerAt s (msg_sender env)) <> 0 ->
    committed env s (AssignTask k) (assignTask_commit env k s)
| committed_submitTaskResult k res prf :
    title (taskAt s k) <> EmptyString ->
    assigneeOf s k = msg_sender env ->
    isCompleted (taskAt s k) = false ->
    block_timestamp env <= deadline (taskAt s k) ->
    checkSignatures [toBytes32 (encryptedData (taskAt s k))] res prf = true ->
    completedTasks (workerAt s (msg_sender env)) + 1 <= MAX_UINT256 ->
    reputation (workerAt s (msg_sender env)) + 10 <= MAX_UINT256 ->
    committed env s (SubmitTaskResult k res prf) (submitTaskResult_commit env k res s).

(** A completed task has a title and is not active; a worker record holds
    either the zero address (not registered) or its own key; a worker's
    reputation is ten per completed task. *)
Record wf (s : State) : Prop := mkWf {
  wf_completed : forall k,
    isCompleted (taskAt s k) = true ->
    title (taskAt s k) <> EmptyString /\ isActive (taskAt s k) = false;
  wf_worker : forall a,
    workerAddress (workerAt s a) = 0 \/ workerAddress (workerAt s a) = a;
  wf_reputation : forall a,
    0 <= completedTasks (workerAt s a) /\
    reputation (workerAt s a) = 10 * completedTasks (workerAt s a)
}.

End Commits.

(** ** The specification's reading of [assignTask]

    The preconditions in the order the specification lists them, each with
    the error it stands for, and the rule "first failure wins".  For the
    specification a task exists once [createTask] has succeeded on its key,
    that is, once the key has been pushed onto [taskIds]. *)

Definition spec_taskExists (s : State) (k : string) : bool :=
  existsb (String.eqb k) (taskIds s).

Definition spec_assignTask_preconditions (s : State) (w : address) (k : string)
    : list (bool * Error) :=
  [ (spec_taskExists s k, TaskDoesNotExist);
    (isActive (taskAt s k), TaskIsNotActive);
    (assigneeOf s k =? 0, TaskAlreadyAssigned);
    (negb (workerAddress (workerAt s w) =? 0), WorkerNotRegistered) ].

Fixpoint spec_first_failure (checks : list (bool * Error)) : option Error :=
  match checks with
  | [] => None
  | (holds, e) :: rest => if holds then spec_first_failure rest else Some e
  end.

(** ** Storage and declared events *)

(** The five storage variables of the contract, without the transaction
    logs. *)
Definition storage (s : State)
    : gmap string Task * gmap Z Worker * gmap string Z * list string * list Z :=
  (tasks s, workers s, taskAssignments s, taskIds s, workerAddresses s).


Definition isTaskCompleted (e : Event) : bool :=
  match e with
  | TaskCompleted _ _ => true
  | _ => false
  end.


(** ** A stand-in for the encryption library

    Used for the concrete runs below.  An input proof is any non-empty byte
    string and gives the external handle back; a decryption proof is any
    non-empty byte string and is accepted for exactly one clear value,
    [clear], whatever the handles. *)

Fixpoint bytes_eqb (a b : bytes) : bool :=
  match a, b with
  | [], [] => true
  | x :: a', y :: b' => Byte.eqb x y && bytes_eqb a' b'
  | _, _ => false
  end.

Definition kms (clear : bytes) : FHE := {|
  fromExternal := fun _ e p => match p with [] => None | _ :: _ => Some e end;
  isInitialized := fun h => negb (h =? 0);
  toBytes32 := fun h => h;
  checkSignatures := fun _ res prf => bytes_eqb res clear && negb (bytes_eqb prf [])
|}.

Definition requester1 : address := 0xA11CE.
Definition w1 : address := 0xB0B.
Definition w2 : address := 0xCAFE.
Definition t1 : string := "t1".
Definition clear42 : bytes := [x00; x00; x00; x2a].
Definition proof1 : bytes := [x01].

(** Create [t1] with reward 100 and deadline now + 3600, register [w1],
    assign [t1] to [w1]. *)
Definition assigned_calls : list (Env * Call) :=
  [ (mkEnv requester1 1000, CreateTask t1 "Label images" 7 proof1 100 4600);
    (mkEnv w1 1001, RegisterWorker);
    (mkEnv w1 1002, AssignTask t1) ].

Definition assigned : State := @run (kms clear42) assigned_calls initial.

Definition submit_env : Env := mkEnv w1 2000.

Definition completed : State :=
  @after (kms clear42) submit_env (SubmitTaskResult t1 clear42 proof1) assigned.

(** [t1] created with an empty title. *)
Definition untitled : State :=
  @after (kms clear42) (mkEnv requester1 1000)
    (CreateTask t1 EmptyString 7 proof1 100 4600) initial.

(** [t1] created with an empty title, then [w1] registered. *)
Definition untitled_registered : State :=
  @after (kms clear42) (mkEnv w1 1001) RegisterWorker untitled.

(** ** Reading the event log *)

(** The keys of the [TaskCreated] events, oldest first. *)
Definition createdKeys (l : list Event) : list string :=
  omap (fun e => match e with TaskCreated k _ => Some k | _ => None end) l.

(** The workers of the [TaskAssigned] events for key [k], oldest first. *)
Definition assignedTo (k : string) (l : list Event) : list address :=
  omap (fun e => match e with
                 | TaskAssigned k' w => if decide (k' = k) then Some w else None
                 | _ => None
                 end) l.

(** The workers of the [TaskCompleted] events for key [k], oldest first. *)
Definition completedBy (k : string) (l : list Event) : list address :=
  omap (fun e => match e with
                 | TaskCompleted k' w => if decide (k' = k) then Some w else None
                 | _ => None
                 end) l.

(** The keys of the [TaskCompleted] events of worker [a], oldest first. *)
Definition completionsOf (a : address) (l : list Event) : list string :=
  omap (fun e => match e with
                 | TaskCompleted k w => if decide (w = a) then Some k else None
                 | _ => None
                 end) l.

(** How often [a] occurs in a list of addresses. *)
Definition occurrences (a : address) (l : list address) : nat :=
  length (List.filter (Z.eqb a) l).

(** The task key a call names, if any. *)
Definition keyOf (c : Call) : option string :=
  match c with
  | CreateTask k _ _ _ _ _ => Some k
  | RegisterWorker => None
  | AssignTask k => Some k
  | SubmitTaskResult k _ _ => Some k
  end.

(** * Properties *)

(** ** The body of each entry point, as the decision it takes *)

Section Decisions.
Context {fhe : FHE}.

Lemma createTask_eq env k t e p r d s :
  createTask env k t e p r d s =
  if (String.length (title (taskAt s k)) =? 0)%nat then
    match fromExternal (msg_sender env) e p with
    | Some h =>
        if isInitialized h then Ok (tt, createTask_commit env k t h r d s)
        else Revert InvalidEncryptedInput s
    | None => Revert InputVerificationReverted s
    end
  else Revert TaskAlreadyExists s.
Proof.
  unfold createTask, bind, gets, require, FHE_fromExternal, ret, revert.
  destruct (String.length _ =? 0)%nat; [|reflexivity].
  destruct (fromExternal _ _ _) as [h|]; [|reflexivity].
  destruct (isInitialized h); [|reflexivity].
  unfold modify, emit, FHE_allowThis, FHE_makePubliclyDecryptable, modify,
    createTask_commit, taskAt, with_tasks, with_acl, with_taskIds, with_log.
  cbn [tasks workers taskAssignments taskIds workerAddresses log acl].
  rewrite lookup_insert_eq. cbn [default encryptedData].
  rewrite <- app_assoc. reflexivity.
Qed.

Lemma registerWorker_eq env s :
  registerWorker env s =
  if workerAddress (workerAt s (msg_sender env)) =? 0
  then Ok (tt, registerWorker_commit env s)
  else Revert WorkerAlreadyRegistered s.
Proof.
  unfold registerWorker, bind, gets, require, ret, revert.
  destruct (_ =? 0); reflexivity.
Qed.

Lemma assignTask_eq env k s :
  assignTask env k s =
  if (0 <? String.length (title (taskAt s k)))%nat then
    if isActive (taskAt s k) then
      if assigneeOf s k =? 0 then
        if negb (workerAddress (workerAt s (msg_sender env)) =? 0)
        then Ok (tt, assignTask_commit env k s)
        else Revert WorkerNotRegistered s
      else Revert TaskAlreadyAssigned s
    else Revert TaskIsNotActive s
  else Revert TaskDoesNotExist s.
Proof.
  unfold assignTask, bind, gets, require, ret, revert.
  destruct (0 <? _)%nat; [|reflexivity].
  destruct (isActive _); [|reflexivity].
  destruct (assigneeOf s k =? 0); [|reflexivity].
  destruct (negb _); reflexivity.
Qed.

Lemma submitTaskResult_eq env k res prf s :
  submitTaskResult env k res prf s =
  if (0 <? String.length (title (taskAt s k)))%nat then
    if assigneeOf s k =? msg_sender env then
      if negb (isCompleted (taskAt s k)) then
        if block_timestamp env <=? deadline (taskAt s k) then
          if checkSignatures [toBytes32 (encryptedData (taskAt s k))] res prf then
            if completedTasks (workerAt s (msg_sender env)) + 1 <=? MAX_UINT256 then
              if reputation (workerAt s (msg_sender env)) + 10 <=? MAX_UINT256
              then Ok (tt, submitTaskResult_commit env k res s)
              else Revert PanicOverflow (submitTaskResult_counted env k res s)
            else Revert PanicOverflow (submitTaskResult_flagged k res s)
          else Revert InvalidKMSSignatures s
        else Revert TaskDeadlinePassed s
      else Revert TaskAlreadyCompleted s
    else Revert NotAssignedToThisWorker s
  else Revert TaskDoesNotExist s.
Proof.
  unfold submitTaskResult, FHE_checkSignatures, bind, gets, require, ret, revert.
  destruct (0 <? _)%nat; [|reflexivity].
  destruct (assigneeOf s k =? _); [|reflexivity].
  destruct (negb _); [|reflexivity].
  destruct (_ <=? deadline _); [|reflexivity].
  destruct (checkSignatures _ _ _); [|reflexivity].
  unfold emit, modify, checked_add, ret, revert, workerAt, taskAt, with_tasks,
    with_workers, with_log.
  cbn [tasks workers taskAssignments taskIds workerAddresses log acl].
  destruct (_ + 1 <=? MAX_UINT256).
  2:{ unfold submitTaskResult_flagged, with_tasks, with_log, taskAt.
      cbn [tasks workers taskAssignments taskIds workerAddresses log acl].
      rewrite ?insert_insert_eq, ?lookup_insert_eq. reflexivity. }
  rewrite !lookup_insert_eq.
  cbn [default from_option id set_completedTasks reputation].
  destruct (_ + 10 <=? MAX_UINT256).
  2:{ unfold submitTaskResult_counted, submitTaskResult_flagged, with_workers,
        with_tasks, with_log, taskAt, workerAt.
      cbn [tasks workers taskAssignments taskIds workerAddresses log acl].
      rewrite ?insert_insert_eq, ?lookup_insert_eq. reflexivity. }
  unfold submitTaskResult_commit, taskAt, workerAt.
  cbn [tasks workers taskAssignments taskIds workerAddresses log acl].
  rewrite ?insert_insert_eq, ?lookup_insert_eq. reflexivity.
Qed.

Lemma getTask_eq k s :
  getTask k s =
  if (0 <? String.length (title (taskAt s k)))%nat then
    Ok ((title (taskAt s k), rewardAmount (taskAt s k), deadline (taskAt s k),
         requester (taskAt s k), isActive (taskAt s k), isCompleted (taskAt s k)), s)
  else Revert TaskDoesNotExist s.
Proof.
  unfold getTask, bind, gets, require, ret, revert.
  destruct (0 <? _)%nat; reflexivity.
Qed.

End Decisions.

(** ** Reading the committed states *)

Lemma length_zero_iff_empty (t : string) :
  (String.length t =? 0)%nat = true <-> t = EmptyString.
Proof.
  destruct t; cbn; split; intros H; try reflexivity; discriminate.
Qed.

Lemma length_pos_iff_nonempty (t : string) :
  (0 <? String.length t)%nat = true <-> t <> EmptyString.
Proof.
  destruct t; cbn; split; intros H; congruence.
Qed.

Section Reading.
Context {fhe : FHE}.

Lemma taskAt_createTask_commit env k t h r d s k' :
  taskAt (createTask_commit env k t h r d s) k' =
  if decide (k = k') then mkTask t h r d (msg_sender env) true false
  else taskAt s k'.
Proof.
  unfold taskAt, createTask_commit; cbn [tasks].
  rewrite lookup_insert. destruct (decide (k = k')); reflexivity.
Qed.

Lemma taskAt_submitTaskResult_commit env k res s k' :
  taskAt (submitTaskResult_commit env k res s) k' =
  if decide (k = k') then set_isActive false (set_isCompleted true (taskAt s k))
  else taskAt s k'.
Proof.
  unfold taskAt at 1, submitTaskResult_commit; cbn [tasks].
  rewrite lookup_insert. destruct (decide (k = k')); reflexivity.
Qed.

Lemma workerAt_registerWorker_commit env s a :
  workerAt (registerWorker_commit env s) a =
  if decide (msg_sender env = a) then mkWorker (msg_sender env) 0 0
  else workerAt s a.
Proof.
  unfold workerAt, registerWorker_commit; cbn [workers].
  rewrite lookup_insert. destruct (decide (msg_sender env = a)); reflexivity.
Qed.

Lemma workerAt_submitTaskResult_commit env k res s a :
  workerAt (submitTaskResult_commit env k res s) a =
  if decide (msg_sender env = a)
  then mkWorker (workerAddress (workerAt s (msg_sender env)))
                (reputation (workerAt s (msg_sender env)) + 10)
                (completedTasks (workerAt s (msg_sender env)) + 1)
  else workerAt s a.
Proof.
  unfold workerAt at 1, submitTaskResult_commit; cbn [workers].
  rewrite lookup_insert. destruct (decide (msg_sender env = a)); reflexivity.
Qed.

Lemma assigneeOf_assignTask_commit env k s k' :
  assigneeOf (assignTask_commit env k s) k' =
  if decide (k = k') then msg_sender env else assigneeOf s k'.
Proof.
  unfold assigneeOf, assignTask_commit; cbn [taskAssignments].
  rewrite lookup_insert. destruct (decide (k = k')); reflexivity.
Qed.

Lemma transact_cases env c s :
  (exists e, transact env c s = (s, Some e)) \/
  (exists s', transact env c s = (s', None) /\ committed env s c s').
Proof.
  unfold transact. destruct c as [k t e p r d| |k|k res prf]; cbn [dispatch].
  - rewrite createTask_eq.
    destruct (String.length _ =? 0)%nat eqn:Ht; [|eauto].
    destruct (fromExternal _ _ _) as [h|] eqn:Hh; [|eauto].
    destruct (isInitialized h) eqn:Hi; [|eauto].
    right. eexists; split; [reflexivity|].
    apply length_zero_iff_empty in Ht. econstructor; eassumption.
  - rewrite registerWorker_eq.
    destruct (_ =? 0) eqn:Hw; [|eauto].
    right. eexists; split; [reflexivity|]. constructor. lia.
  - rewrite assignTask_eq.
    destruct (0 <? _)%nat eqn:Ht; [|eauto].
    destruct (isActive _) eqn:Ha; [|eauto].
    destruct (assigneeOf s k =? 0) eqn:Has; [|eauto].
    destruct (workerAddress _ =? 0) eqn:Hw; cbn [negb]; [eauto|].
    right. eexists; split; [reflexivity|].
    apply length_pos_iff_nonempty in Ht. constructor; auto; lia.
  - rewrite submitTaskResult_eq.
    destruct (0 <? _)%nat eqn:Ht; [|eauto].
    destruct (assigneeOf s k =? _) eqn:Has; [|eauto].
    destruct (isCompleted _) eqn:Hc; cbn [negb]; [eauto|].
    destruct (_ <=? deadline _) eqn:Hd; [|eauto].
    destruct (checkSignatures _ _ _) eqn:Hs; [|eauto].
    destruct (_ + 1 <=? MAX_UINT256) eqn:H1; [|eauto].
    destruct (_ + 10 <=? MAX_UINT256) eqn:H10; [|eauto].
    right. eexists; split; [reflexivity|].
    apply length_pos_iff_nonempty in Ht. constructor; auto; lia.
Qed.

Lemma after_cases env c s :
  after env c s = s \/ committed env s c (after env c s).
Proof.
  unfold after.
  destruct (transact_cases env c s) as [[e He]|[s' [He Hc]]]; rewrite He; cbn; auto.
Qed.

Lemma outcome_None_committed env c s :
  outcome env c s = None -> committed env s c (after env c s).
Proof.
  unfold outcome, after.
  destruct (transact_cases env c s) as [[e He]|[s' [He Hc]]]; rewrite He; cbn;
    [discriminate | auto].
Qed.

Lemma outcome_Some_after env c s e :
  outcome env c s = Some e -> after env c s = s.
Proof.
  unfold outcome, after.
  destruct (transact_cases env c s) as [[e' He]|[s' [He Hc]]]; rewrite He; cbn;
    [auto | discriminate].
Qed.

Lemma reachable_run cs s : reachable s -> reachable (run cs s).
Proof.
  revert s. induction cs as [|[env c] cs IH]; intros s Hs; cbn [run]; auto.
  apply IH. constructor. exact Hs.
Qed.

End Reading.

(** ** Invariants of the reachable states *)

Section Invariants.
Context {fhe : FHE}.

Lemma wf_initial : wf initial.
Proof.
  split.
  - intros k. unfold taskAt, initial; cbn [tasks]. rewrite lookup_empty.
    cbn. discriminate.
  - intros a. left. unfold workerAt, initial; cbn [workers].
    rewrite lookup_empty. reflexivity.
  - intros a. unfold workerAt, initial; cbn [workers].
    rewrite lookup_empty. cbn. lia.
Qed.

Lemma wf_committed env c s s' : wf s -> committed env s c s' -> wf s'.
Proof.
  intros [Hc Hw Hrep] Hstep.
  destruct Hstep as [k t e p r d h Ht Hh Hi|Hz|k Ht Ha Has Hreg
                    |k res prf Ht Has Hnc Hd Hs H1 H10].
  - split; [|exact Hw|exact Hrep].
    intros k'. rewrite taskAt_createTask_commit.
    destruct (decide (k = k')); [cbn; discriminate | apply Hc].
  - split; [exact Hc| |].
    + intros a. rewrite workerAt_registerWorker_commit.
      destruct (decide (msg_sender env = a)) as [->|]; [right; reflexivity | apply Hw].
    + intros a. rewrite workerAt_registerWorker_commit.
      destruct (decide (msg_sender env = a)); [cbn; lia | apply Hrep].
  - split; [exact Hc | exact Hw | exact Hrep].
  - split.
    + intros k'. rewrite taskAt_submitTaskResult_commit.
      destruct (decide (k = k')); [|apply Hc].
      cbn. intros _. split; [exact Ht | reflexivity].
    + intros a. rewrite workerAt_submitTaskResult_commit.
      destruct (decide (msg_sender env = a)) as [<-|]; [|apply Hw].
      cbn [workerAddress]. apply Hw.
    + intros a. rewrite workerAt_submitTaskResult_commit.
      destruct (decide (msg_sender env = a)) as [<-|]; [|apply Hrep].
      cbn [completedTasks reputation].
      destruct (Hrep (msg_sender env)) as [H0 Hr]. lia.
Qed.

Lemma wf_after env c s : wf s -> wf (after env c s).
Proof.
  intros H. destruct (after_cases env c s) as [->|Hc]; [exact H|].
  eapply wf_committed; eassumption.
Qed.

Lemma reachable_wf s : reachable s -> wf s.
Proof.
  induction 1 as [|s env c _ IH]; [apply wf_initial | apply wf_after, IH].
Qed.

(** In a reachable state the reputation is ten times the completion
    count, so the count cannot overflow where the reputation does not. *)
Lemma reachable_counters s a :
  reachable s ->
  reputation (workerAt s a) = 10 * completedTasks (workerAt s a) /\
  (reputation (workerAt s a) + 10 <= MAX_UINT256 ->
   completedTasks (workerAt s a) + 1 <= MAX_UINT256).
Proof.
  intros Hr. destruct (wf_reputation s (reachable_wf s Hr) a) as [H0 H10].
  split; [exact H10 | lia].
Qed.

(** Completion survives every transaction from a well-formed state. *)
Lemma isCompleted_after env c s k :
  wf s -> isCompleted (taskAt s k) = true ->
  isCompleted (taskAt (after env c s) k) = true.
Proof.
  intros Hwf Hk. destruct (after_cases env c s) as [->|Hc]; [exact Hk|].
  destruct Hc as [k' t e p r d h Ht Hh Hi|Hz|k' Ht Ha Has Hreg
                 |k' res prf Ht Has Hnc Hd Hs H1 H10].
  - rewrite taskAt_createTask_commit.
    destruct (decide (k' = k)) as [->|]; [|exact Hk].
    destruct (wf_completed s Hwf k Hk) as [Hne _]. contradiction.
  - exact Hk.
  - exact Hk.
  - rewrite taskAt_submitTaskResult_commit.
    destruct (decide (k' = k)); [reflexivity | exact Hk].
Qed.

Lemma isCompleted_run cs s k :
  wf s -> isCompleted (taskAt s k) = true ->
  isCompleted (taskAt (run cs s) k) = true.
Proof.
  revert s. induction cs as [|[env c] cs IH]; intros s Hwf Hk; cbn [run]; auto.
  apply IH; [apply wf_after, Hwf | apply isCompleted_after; assumption].
Qed.

(** A recorded assignee survives every transaction, from any state. *)
Lemma assigneeOf_after env c s k :
  assigneeOf s k <> 0 -> assigneeOf (after env c s) k = assigneeOf s k.
Proof.
  intros Hk. destruct (after_cases env c s) as [->|Hc]; [reflexivity|].
  destruct Hc as [k' t e p r d h Ht Hh Hi|Hz|k' Ht Ha Has Hreg
                 |k' res prf Ht Has Hnc Hd Hs H1 H10]; try reflexivity.
  rewrite assigneeOf_assignTask_commit.
  destruct (decide (k' = k)) as [->|]; [contradiction | reflexivity].
Qed.

Lemma assigneeOf_run cs s k :
  assigneeOf s k <> 0 -> assigneeOf (run cs s) k = assigneeOf s k.
Proof.
  revert s. induction cs as [|[env c] cs IH]; intros s Hk; cbn [run]; auto.
  rewrite IH; rewrite assigneeOf_after; auto.
Qed.

Lemma assignTask_reverts_when_assigned env s k :
  assigneeOf s k <> 0 -> outcome env (AssignTask k) s <> None.
Proof.
  intros Hk Hnone. apply outcome_None_committed in Hnone.
  inversion Hnone; subst. contradiction.
Qed.

End Invariants.

(** ** Concrete runs *)

Example assigned_task :
  view (getTask t1) assigned
  = inl ("Label images"%string, 100, 4600, requester1, true, false).
Proof. vm_compute. reflexivity. Qed.

Example completed_worker :
  view (getWorker w1) completed = inl (10, 1).
Proof. vm_compute. reflexivity. Qed.

(** ** Task creation and existing keys *)

Section Creation.
Context {fhe : FHE}.

(** A key whose stored title is not empty is refused, and the refused call
    changes nothing. *)
Lemma createTask_titled_key_refused env k t e p r d s :
  title (taskAt s k) <> EmptyString ->
  createTask env k t e p r d s = Revert TaskAlreadyExists s /\
  transact env (CreateTask k t e p r d) s = (s, Some TaskAlreadyExists).
Proof.
  intros Hne. unfold transact; cbn [dispatch]. rewrite createTask_eq.
  destruct (String.length _ =? 0)%nat eqn:Hl.
  - apply length_zero_iff_empty in Hl. contradiction.
  - split; reflexivity.
Qed.

(** A second [createTask] on a key first created with a non-empty title is
    refused. *)
Lemma createTask_twice_refused env k t e p r d env' t' e' p' r' d' s :
  t <> EmptyString ->
  outcome env (CreateTask k t e p r d) s = None ->
  transact env' (CreateTask k t' e' p' r' d') (after env (CreateTask k t e p r d) s)
  = (after env (CreateTask k t e p r d) s, Some TaskAlreadyExists).
Proof.
  intros Hne Hok. apply createTask_titled_key_refused.
  apply outcome_None_committed in Hok. inversion Hok; subst.
  rewrite taskAt_createTask_commit. destruct (decide (k = k)); [exact Hne | congruence].
Qed.

End Creation.

(** C1. A second [createTask] with the key of an earlier successful
    [createTask] must fail with "Task already exists" and change nothing.
    The contract misses the case of a first task created with an empty
    title: from the initial state, [createTask("t1", "", ...)] succeeds, and
    a second [createTask("t1", "Relabel", ...)] by another sender succeeds
    as well, replaces the stored record and appends the key to [taskIds] a
    second time. *)
Theorem C1_empty_title_key_created_twice :
  let first := CreateTask t1 EmptyString 7 proof1 100 4600 in
  let second := CreateTask t1 "Relabel" 9 proof1 5 50 in
  let env1 := mkEnv requester1 1000 in
  let env2 := mkEnv w2 1500 in
  @outcome (kms clear42) env1 first initial = None /\
  untitled = @after (kms clear42) env1 first initial /\
  taskAt untitled t1 = mkTask EmptyString 7 100 4600 requester1 true false /\
  @outcome (kms clear42) env2 second untitled = None /\
  taskAt (@after (kms clear42) env2 second untitled) t1
    = mkTask "Relabel" 9 5 50 w2 true false /\
  taskIds (@after (kms clear42) env2 second untitled) = [t1; t1] /\
  @after (kms clear42) env2 second untitled <> untitled.
Proof.
  cbv zeta. repeat split; try (vm_compute; reflexivity).
  intros H. apply (f_equal taskIds) in H. vm_compute in H. discriminate.
Qed.

(** ** Events *)



(** ** Submission *)

Section Submission.
Context {fhe : FHE}.

Lemma submitTaskResult_Ok_commit env k res prf s :
  outcome env (SubmitTaskResult k res prf) s = None ->
  after env (SubmitTaskResult k res prf) s = submitTaskResult_commit env k res s.
Proof.
  intros H. apply outcome_None_committed in H. inversion H; subst. congruence.
Qed.

Lemma submitTaskResult_succeeds env k res prf s :
  title (taskAt s k) <> EmptyString ->
  assigneeOf s k = msg_sender env ->
  isCompleted (taskAt s k) = false ->
  block_timestamp env <= deadline (taskAt s k) ->
  checkSignatures [toBytes32 (encryptedData (taskAt s k))] res prf = true ->
  completedTasks (workerAt s (msg_sender env)) + 1 <= MAX_UINT256 ->
  reputation (workerAt s (msg_sender env)) + 10 <= MAX_UINT256 ->
  transact env (SubmitTaskResult k res prf) s
  = (submitTaskResult_commit env k res s, None).
Proof.
  intros Ht Has Hc Hd Hs H1 H10.
  unfold transact; cbn [dispatch]. rewrite submitTaskResult_eq.
  apply length_pos_iff_nonempty in Ht. rewrite Ht.
  apply Z.eqb_eq in Has. rewrite Has. rewrite Hc; cbn [negb].
  apply Z.leb_le in Hd, H1, H10. rewrite Hd, Hs, H1, H10. reflexivity.
Qed.

End Submission.

(** C3, as the specification states it, fails: the clear value submitted
    is not in the storage a successful [submitTaskResult] leaves.  The task
    [t1], assigned to [w1], completes to one and the same storage when the
    library signs the clear value [01] and [01] is submitted, and when it
    signs [02] and [02] is submitted; so no field of the task, and no
    reading of the storage at all, gives back the value that was
    submitted. *)
Lemma C3_clear_value_is_not_stored :
  let submit v := SubmitTaskResult t1 v proof1 in
  @outcome (kms [x01]) submit_env (submit [x01]) assigned = None /\
  @outcome (kms [x02]) submit_env (submit [x02]) assigned = None /\
  storage (@after (kms [x01]) submit_env (submit [x01]) assigned)
    = storage (@after (kms [x02]) submit_env (submit [x02]) assigned) /\
  ~ (exists read : gmap string Task * gmap Z Worker * gmap string Z
                   * list string * list Z -> string -> option bytes,
       forall (fhe : FHE) env k res prf s,
         outcome env (SubmitTaskResult k res prf) s = None ->
         read (storage (after env (SubmitTaskResult k res prf) s)) k = Some res).
Proof.
  cbv zeta.
  assert (Ha : @outcome (kms [x01]) submit_env (SubmitTaskResult t1 [x01] proof1)
                 assigned = None) by (vm_compute; reflexivity).
  assert (Hb : @outcome (kms [x02]) submit_env (SubmitTaskResult t1 [x02] proof1)
                 assigned = None) by (vm_compute; reflexivity).
  assert (Heq : storage (@after (kms [x01]) submit_env
                           (SubmitTaskResult t1 [x01] proof1) assigned)
                = storage (@after (kms [x02]) submit_env
                             (SubmitTaskResult t1 [x02] proof1) assigned)).
  { rewrite (@submitTaskResult_Ok_commit (kms [x01]) _ _ _ _ _ Ha).
    rewrite (@submitTaskResult_Ok_commit (kms [x02]) _ _ _ _ _ Hb). reflexivity. }
  split; [exact Ha|]. split; [exact Hb|]. split; [exact Heq|].
  intros [read H].
  pose proof (H (kms [x01]) _ _ _ _ _ Ha) as Ra.
  pose proof (H (kms [x02]) _ _ _ _ _ Hb) as Rb.
  rewrite Heq in Ra. rewrite Ra in Rb. discriminate.
Qed.

(** C3, amended. [Task] has no field for a disclosed value and the clear
    value is never written to storage.  When [submitTaskResult] succeeds,
    [checkSignatures] has accepted the submitted clear value for the handle
    stored on the task; the storage it leaves is the same whatever clear
    value was submitted (the flags are set and the sender's counters
    incremented; title, handle, reward, deadline and requester of the task
    are as before); the clear value appears only in the
    [PublicDecryptionVerified] event the library logs in that transaction.
    When it fails the state is the one before. *)
Theorem C3_clear_value_checked_not_stored (fhe : FHE) env k res prf s :
  let s' := after env (SubmitTaskResult k res prf) s in
  (outcome env (SubmitTaskResult k res prf) s = None ->
     checkSignatures [toBytes32 (encryptedData (taskAt s k))] res prf = true /\
     (forall res', storage s' = storage (submitTaskResult_commit env k res' s)) /\
     taskAt s' k = mkTask (title (taskAt s k)) (encryptedData (taskAt s k))
                     (rewardAmount (taskAt s k)) (deadline (taskAt s k))
                     (requester (taskAt s k)) false true /\
     PublicDecryptionVerified [toBytes32 (encryptedData (taskAt s k))] res
       ∈ emitted env (SubmitTaskResult k res prf) s) /\
  (outcome env (SubmitTaskResult k res prf) s <> None -> s' = s).
Proof.
  cbv zeta. split.
  - intros H. unfold emitted. rewrite (submitTaskResult_Ok_commit _ _ _ _ _ H).
    split; [|split; [reflexivity|split]].
    + apply outcome_None_committed in H. inversion H; subst. assumption.
    + rewrite taskAt_submitTaskResult_commit.
      destruct (decide (k = k)); [reflexivity | congruence].
    + cbn [log submitTaskResult_commit].
      rewrite <- app_assoc, drop_app_length. apply list_elem_of_here.
  - intros H. destruct (outcome env (SubmitTaskResult k res prf) s) as [e|] eqn:He;
      [|congruence].
    eapply outcome_Some_after, He.
Qed.

Lemma C3_clear_value_checked_not_stored_witness :
  @outcome (kms clear42) submit_env (SubmitTaskResult t1 clear42 proof1) assigned = None /\
  storage completed = storage (@submitTaskResult_commit (kms clear42) submit_env t1 []
                                 assigned) /\
  taskAt completed t1 = mkTask "Label images" 7 100 4600 requester1 false true /\
  PublicDecryptionVerified [7] clear42
    ∈ @emitted (kms clear42) submit_env (SubmitTaskResult t1 clear42 proof1) assigned.
Proof.
  split; [vm_compute; reflexivity|].
  destruct (proj1 (C3_clear_value_checked_not_stored (kms clear42) submit_env t1
                     clear42 proof1 assigned)) as (_ & Hs & Ht & He).
  - vm_compute; reflexivity.
  - split; [exact (Hs []) | split; [exact Ht | exact He]].
Defined.

(** ** Phase flags *)

(** C4. In every reachable state no task is both active and completed, and
    a task that is completed is completed in every state a further sequence
    of transactions leads to. *)
Theorem C4_flags_exclusive_completion_final (fhe : FHE) s k :
  reachable s ->
  (isActive (taskAt s k) && isCompleted (taskAt s k) = false) /\
  (isCompleted (taskAt s k) = true ->
   forall cs, isCompleted (taskAt (run cs s) k) = true).
Proof.
  intros Hr. pose proof (reachable_wf s Hr) as Hwf. split.
  - destruct (isCompleted (taskAt s k)) eqn:Hc.
    + destruct (wf_completed s Hwf k Hc) as [_ ->]. reflexivity.
    + apply andb_false_r.
  - intros Hc cs. apply isCompleted_run; assumption.
Qed.

Lemma C4_flags_exclusive_completion_final_witness :
  isActive (taskAt completed t1) && isCompleted (taskAt completed t1) = false /\
  isCompleted (taskAt
    (@run (kms clear42)
       [ (mkEnv requester1 3000, CreateTask t1 "Again" 8 proof1 1 9000);
         (mkEnv w1 3001, SubmitTaskResult t1 clear42 proof1);
         (mkEnv w2 3002, RegisterWorker) ] completed) t1) = true.
Proof.
  assert (Hr : @reachable (kms clear42) completed).
  { unfold completed, assigned.
    apply reachable_step, reachable_run, reachable_initial. }
  destruct (C4_flags_exclusive_completion_final (kms clear42) completed t1 Hr)
    as [Hx Hf].
  split; [exact Hx|]. apply Hf. vm_compute. reflexivity.
Defined.

(** ** A successful submission *)

(** C5. When the assignee of an existing, not yet completed task submits
    no later than the deadline with a proof that verifies, and the two
    counters are below the [uint256] limit, then the call succeeds, the
    task is completed and not active, the sender's [completedTasks] is one
    more, the sender's [reputation] is ten more, and among the events the
    transaction logs there is exactly one [TaskCompleted], with the key and
    the sender. *)
Theorem C5_submit_completes_and_rewards (fhe : FHE) env k res prf s :
  title (taskAt s k) <> EmptyString ->
  assigneeOf s k = msg_sender env ->
  isCompleted (taskAt s k) = false ->
  block_timestamp env <= deadline (taskAt s k) ->
  checkSignatures [toBytes32 (encryptedData (taskAt s k))] res prf = true ->
  completedTasks (workerAt s (msg_sender env)) + 1 <= MAX_UINT256 ->
  reputation (workerAt s (msg_sender env)) + 10 <= MAX_UINT256 ->
  let s' := after env (SubmitTaskResult k res prf) s in
  outcome env (SubmitTaskResult k res prf) s = None /\
  isCompleted (taskAt s' k) = true /\
  isActive (taskAt s' k) = false /\
  completedTasks (workerAt s' (msg_sender env))
    = completedTasks (workerAt s (msg_sender env)) + 1 /\
  reputation (workerAt s' (msg_sender env))
    = reputation (workerAt s (msg_sender env)) + 10 /\
  List.filter isTaskCompleted (emitted env (SubmitTaskResult k res prf) s)
    = [TaskCompleted k (msg_sender env)].
Proof.
  intros Ht Has Hc Hd Hs H1 H10. cbv zeta.
  pose proof (submitTaskResult_succeeds env k res prf s Ht Has Hc Hd Hs H1 H10) as Htx.
  unfold emitted, after, outcome. rewrite Htx. cbn [fst snd].
  rewrite taskAt_submitTaskResult_commit, workerAt_submitTaskResult_commit.
  destruct (decide (k = k)); [|congruence].
  destruct (decide (msg_sender env = msg_sender env)); [|congruence].
  repeat split. cbn [log submitTaskResult_commit].
  rewrite <- app_assoc, drop_app_length. reflexivity.
Qed.

Lemma C5_submit_completes_and_rewards_witness :
  isCompleted (taskAt completed t1) = true /\
  completedTasks (workerAt completed w1) = 1 /\
  reputation (workerAt completed w1) = 10 /\
  List.filter isTaskCompleted
    (@emitted (kms clear42) submit_env (SubmitTaskResult t1 clear42 proof1) assigned)
    = [TaskCompleted t1 w1].
Proof.
  destruct (C5_submit_completes_and_rewards (kms clear42) submit_env t1 clear42
              proof1 assigned) as (_ & Hc & _ & Hn & Hr & He).
  - vm_compute. discriminate.
  - vm_compute. reflexivity.
  - vm_compute. reflexivity.
  - vm_compute. discriminate.
  - vm_compute. reflexivity.
  - vm_compute. discriminate.
  - vm_compute. discriminate.
  - split; [exact Hc | split; [exact Hn | split; [exact Hr | exact He]]].
Defined.

(** ** A failed submission *)

(** C6. A [submitTaskResult] that fails leaves the state as it was, so
    [getTask] and [getWorker] answer as before on every key.  The failure
    is one of the four precondition errors, the verification error or the
    arithmetic panic; except for the panic, the body had written nothing
    when it stopped. *)
Theorem C6_failed_submit_changes_nothing (fhe : FHE) env k res prf s e :
  outcome env (SubmitTaskResult k res prf) s = Some e ->
  let s' := after env (SubmitTaskResult k res prf) s in
  s' = s /\
  (forall k', view (getTask k') s' = view (getTask k') s) /\
  (forall a, view (getWorker a) s' = view (getWorker a) s) /\
  (forall k', assigneeOf s' k' = assigneeOf s k') /\
  In e [TaskDoesNotExist; NotAssignedToThisWorker; TaskAlreadyCompleted;
        TaskDeadlinePassed; InvalidKMSSignatures; PanicOverflow] /\
  (e <> PanicOverflow -> submitTaskResult env k res prf s = Revert e s).
Proof.
  intros H. cbv zeta. rewrite (outcome_Some_after _ _ _ _ H).
  do 4 (split; [reflexivity|]).
  revert H. unfold outcome, transact; cbn [dispatch]. rewrite submitTaskResult_eq.
  destruct (0 <? _)%nat; [|intros [= <-]; cbn; tauto].
  destruct (assigneeOf s k =? _); [|intros [= <-]; cbn; tauto].
  destruct (negb _); [|intros [= <-]; cbn; tauto].
  destruct (_ <=? deadline _); [|intros [= <-]; cbn; tauto].
  destruct (checkSignatures _ _ _); [|intros [= <-]; cbn; tauto].
  destruct (_ + 1 <=? MAX_UINT256); [|intros [= <-]; cbn; tauto].
  destruct (_ + 10 <=? MAX_UINT256); [|intros [= <-]; cbn; tauto].
  cbn. discriminate.
Qed.

Lemma C6_failed_submit_changes_nothing_witness :
  @after (kms clear42) submit_env (SubmitTaskResult t1 [x07] proof1) assigned = assigned /\
  view (getTask t1) (@after (kms clear42) submit_env (SubmitTaskResult t1 [x07] proof1) assigned)
    = view (getTask t1) assigned.
Proof.
  destruct (C6_failed_submit_changes_nothing (kms clear42) submit_env t1 [x07] proof1
              assigned InvalidKMSSignatures) as (Hs & Hg & _).
  - vm_compute. reflexivity.
  - split; [exact Hs | exact (Hg t1)].
Defined.

(** ** The deadline *)

(** C7. For an existing task whose assignee is the sender and which is not
    completed: a submission at a time after the deadline fails with "Task
    deadline passed" whatever the proof; a submission at a time up to and
    including the deadline does not fail with that error, and at the
    deadline itself it succeeds when the proof verifies and the counters
    do not overflow. *)
Theorem C7_deadline_inclusive (fhe : FHE) env k res prf s :
  title (taskAt s k) <> EmptyString ->
  assigneeOf s k = msg_sender env ->
  isCompleted (taskAt s k) = false ->
  (deadline (taskAt s k) < block_timestamp env ->
   outcome env (SubmitTaskResult k res prf) s = Some TaskDeadlinePassed) /\
  (block_timestamp env <= deadline (taskAt s k) ->
   outcome env (SubmitTaskResult k res prf) s <> Some TaskDeadlinePassed) /\
  (block_timestamp env = deadline (taskAt s k) ->
   checkSignatures [toBytes32 (encryptedData (taskAt s k))] res prf = true ->
   completedTasks (workerAt s (msg_sender env)) + 1 <= MAX_UINT256 ->
   reputation (workerAt s (msg_sender env)) + 10 <= MAX_UINT256 ->
   outcome env (SubmitTaskResult k res prf) s = None).
Proof.
  intros Ht Has Hc. split; [|split].
  - intros Hd. unfold outcome, transact; cbn [dispatch]. rewrite submitTaskResult_eq.
    apply length_pos_iff_nonempty in Ht. rewrite Ht.
    apply Z.eqb_eq in Has. rewrite Has. rewrite Hc; cbn [negb].
    apply Z.leb_gt in Hd. rewrite Hd. reflexivity.
  - intros Hd. unfold outcome, transact; cbn [dispatch]. rewrite submitTaskResult_eq.
    apply length_pos_iff_nonempty in Ht. rewrite Ht.
    apply Z.eqb_eq in Has. rewrite Has. rewrite Hc; cbn [negb].
    apply Z.leb_le in Hd. rewrite Hd.
    destruct (checkSignatures _ _ _); [|cbn; discriminate].
    destruct (_ + 1 <=? MAX_UINT256); [|cbn; discriminate].
    destruct (_ + 10 <=? MAX_UINT256); cbn; discriminate.
  - intros Hd Hs H1 H10. unfold outcome.
    rewrite submitTaskResult_succeeds; auto. lia.
Qed.

Lemma C7_deadline_inclusive_witness :
  @outcome (kms clear42) (mkEnv w1 4601) (SubmitTaskResult t1 clear42 proof1) assigned
    = Some TaskDeadlinePassed /\
  @outcome (kms clear42) (mkEnv w1 4600) (SubmitTaskResult t1 clear42 proof1) assigned
    = None.
Proof.
  split.
  - apply (C7_deadline_inclusive (kms clear42) (mkEnv w1 4601) t1 clear42 proof1 assigned).
    + vm_compute. discriminate.
    + vm_compute. reflexivity.
    + vm_compute. reflexivity.
    + vm_compute. reflexivity.
  - apply (C7_deadline_inclusive (kms clear42) (mkEnv w1 4600) t1 clear42 proof1 assigned).
    + vm_compute. discriminate.
    + vm_compute. reflexivity.
    + vm_compute. reflexivity.
    + vm_compute. reflexivity.
    + vm_compute. reflexivity.
    + vm_compute. discriminate.
    + vm_compute. discriminate.
Defined.

(** ** Assignment *)

Lemma eqb_empty_length (t : string) :
  negb (String.eqb t EmptyString) = (0 <? String.length t)%nat.
Proof. destruct t; reflexivity. Qed.

(** Where the stored title is non-empty exactly for the keys in
    [taskIds], the error of [assignTask] is the one of the first
    precondition that fails in the specification's order, and the call
    succeeds when none fails. *)
Lemma assignTask_first_failure (fhe : FHE) env k s :
  spec_taskExists s k = negb (String.eqb (title (taskAt s k)) EmptyString) ->
  outcome env (AssignTask k) s
  = spec_first_failure (spec_assignTask_preconditions s (msg_sender env) k).
Proof.
  intros Hex. unfold outcome, transact; cbn [dispatch]. rewrite assignTask_eq.
  unfold spec_assignTask_preconditions; cbn [spec_first_failure].
  rewrite Hex, eqb_empty_length. clear Hex.
  destruct (0 <? _)%nat; [|reflexivity].
  destruct (isActive _); [|reflexivity].
  destruct (assigneeOf s k =? 0); [|reflexivity].
  destruct (workerAddress _ =? 0); reflexivity.
Qed.

(** C8. [assignTask] must return the error of the first precondition
    that fails, task existence first, and succeed when none fails.  The
    contract tests existence by the stored title, the slip of C1: after
    [createTask("t1", "", ...)] and [registerWorker] by [w1], the key is in
    [taskIds], the task is active and unassigned and [w1] is registered, so
    no precondition of the specification fails, yet [assignTask("t1")] by
    [w1] fails with "Task does not exist". *)
Theorem C8_untitled_task_is_not_assignable :
  let s := untitled_registered in
  let env := mkEnv w1 1002 in
  @reachable (kms clear42) s /\
  taskIds s = [t1] /\
  isActive (taskAt s t1) = true /\
  assigneeOf s t1 = 0 /\
  workerAddress (workerAt s w1) = w1 /\
  spec_first_failure (spec_assignTask_preconditions s (msg_sender env) t1) = None /\
  @outcome (kms clear42) env (AssignTask t1) s = Some TaskDoesNotExist.
Proof.
  cbv zeta. split.
  - unfold untitled_registered, untitled.
    apply reachable_step, reachable_step, reachable_initial.
  - repeat split; vm_compute; reflexivity.
Qed.

Lemma assignTask_Ok_commit (fhe : FHE) env k s :
  outcome env (AssignTask k) s = None ->
  assigneeOf s k = 0 /\
  workerAddress (workerAt s (msg_sender env)) <> 0 /\
  after env (AssignTask k) s = assignTask_commit env k s.
Proof.
  intros H. apply outcome_None_committed in H.
  inversion H; subst. repeat split; congruence.
Qed.

(** C9. A successful [assignTask] in a reachable state finds the key
    without assignee and records the sender, who is not the zero address;
    after any further sequence of transactions the assignee of the key is
    still that sender, and every further [assignTask] on the key fails. *)
Theorem C9_assignment_single_and_permanent (fhe : FHE) env k s :
  reachable s ->
  outcome env (AssignTask k) s = None ->
  let s' := after env (AssignTask k) s in
  assigneeOf s k = 0 /\
  msg_sender env <> 0 /\
  assigneeOf s' k = msg_sender env /\
  forall cs,
    assigneeOf (run cs s') k = msg_sender env /\
    forall env', outcome env' (AssignTask k) (run cs s') <> None.
Proof.
  intros Hr Hok. cbv zeta.
  destruct (assignTask_Ok_commit fhe env k s Hok) as (Has & Hreg & ->).
  assert (Hne : msg_sender env <> 0).
  { destruct (wf_worker s (reachable_wf s Hr) (msg_sender env)) as [Hz|Hs];
      congruence. }
  assert (Hs' : assigneeOf (assignTask_commit env k s) k = msg_sender env).
  { rewrite assigneeOf_assignTask_commit.
    destruct (decide (k = k)); congruence. }
  split; [exact Has|]. split; [exact Hne|]. split; [exact Hs'|].
  intros cs.
  assert (Hrun : assigneeOf (run cs (assignTask_commit env k s)) k = msg_sender env).
  { rewrite assigneeOf_run; congruence. }
  split; [exact Hrun|].
  intros env'. apply assignTask_reverts_when_assigned. congruence.
Qed.

Lemma C9_assignment_single_and_permanent_witness :
  assigneeOf assigned t1 = w1 /\
  assigneeOf
    (@run (kms clear42)
       [ (mkEnv w2 1100, RegisterWorker);
         (mkEnv w2 1101, AssignTask t1);
         (mkEnv w1 1102, SubmitTaskResult t1 clear42 proof1);
         (mkEnv w2 1103, AssignTask t1) ] assigned) t1 = w1.
Proof.
  destruct (C9_assignment_single_and_permanent (kms clear42) (mkEnv w1 1002) t1
              (@run (kms clear42) (firstn 2 assigned_calls) initial))
    as (_ & _ & Ha & Hp).
  - apply reachable_run, reachable_initial.
  - vm_compute. reflexivity.
  - split; [exact Ha|].
    exact (proj1 (Hp [ (mkEnv w2 1100, RegisterWorker);
                       (mkEnv w2 1101, AssignTask t1);
                       (mkEnv w1 1102, SubmitTaskResult t1 clear42 proof1);
                       (mkEnv w2 1103, AssignTask t1) ])).
Defined.

(** ** Existence is a non-empty title *)

Section Untitled.
Context {fhe : FHE}.

Lemma createTask_succeeds env k t e p r d h s :
  title (taskAt s k) = EmptyString ->
  fromExternal (msg_sender env) e p = Some h ->
  isInitialized h = true ->
  transact env (CreateTask k t e p r d) s = (createTask_commit env k t h r d s, None).
Proof.
  intros Ht Hh Hi. unfold transact; cbn [dispatch]. rewrite createTask_eq.
  apply length_zero_iff_empty in Ht. rewrite Ht, Hh, Hi. reflexivity.
Qed.

End Untitled.

(** C10. A task created with an empty title is stored, and its key is
    appended to [taskIds], but every entry point takes it as absent:
    [getTask], [assignTask] and [submitTaskResult] fail with "Task does not
    exist", and a later [createTask] on the key with a valid input succeeds,
    replaces the record and appends the key a second time. *)
Theorem C10_untitled_task_is_absent (fhe : FHE) env k e p r d h s :
  title (taskAt s k) = EmptyString ->
  fromExternal (msg_sender env) e p = Some h ->
  isInitialized h = true ->
  let s1 := after env (CreateTask k EmptyString e p r d) s in
  outcome env (CreateTask k EmptyString e p r d) s = None /\
  taskAt s1 k = mkTask EmptyString h r d (msg_sender env) true false /\
  taskIds s1 = taskIds s ++ [k] /\
  view (getTask k) s1 = inr TaskDoesNotExist /\
  (forall env', outcome env' (AssignTask k) s1 = Some TaskDoesNotExist) /\
  (forall env' res prf,
     outcome env' (SubmitTaskResult k res prf) s1 = Some TaskDoesNotExist) /\
  (forall env' t' e' p' r' d' h',
     fromExternal (msg_sender env') e' p' = Some h' ->
     isInitialized h' = true ->
     let s2 := after env' (CreateTask k t' e' p' r' d') s1 in
     outcome env' (CreateTask k t' e' p' r' d') s1 = None /\
     taskAt s2 k = mkTask t' h' r' d' (msg_sender env') true false /\
     taskIds s2 = taskIds s ++ [k; k]).
Proof.
  intros Ht Hh Hi. cbv zeta.
  pose proof (createTask_succeeds env k EmptyString e p r d h s Ht Hh Hi) as Htx.
  assert (Hafter : after env (CreateTask k EmptyString e p r d) s
                   = createTask_commit env k EmptyString h r d s)
    by (unfold after; rewrite Htx; reflexivity).
  assert (Hout : outcome env (CreateTask k EmptyString e p r d) s = None)
    by (unfold outcome; rewrite Htx; reflexivity).
  rewrite Hafter, Hout.
  set (s1 := createTask_commit env k EmptyString h r d s).
  assert (H1 : taskAt s1 k = mkTask EmptyString h r d (msg_sender env) true false).
  { unfold s1. rewrite taskAt_createTask_commit.
    destruct (decide (k = k)); [reflexivity | congruence]. }
  split; [reflexivity|]. split; [exact H1|]. split; [reflexivity|].
  split; [|split; [|split]].
  - unfold view. rewrite getTask_eq, H1. reflexivity.
  - intros env'. unfold outcome, transact; cbn [dispatch].
    rewrite assignTask_eq, H1. reflexivity.
  - intros env' res prf. unfold outcome, transact; cbn [dispatch].
    rewrite submitTaskResult_eq, H1. reflexivity.
  - intros env' t' e' p' r' d' h' Hh' Hi'.
    assert (Ht1 : title (taskAt s1 k) = EmptyString) by (rewrite H1; reflexivity).
    pose proof (createTask_succeeds env' k t' e' p' r' d' h' s1 Ht1 Hh' Hi') as Htx'.
    unfold after, outcome. rewrite Htx'. cbn [fst snd].
    split; [reflexivity|]. split.
    + rewrite taskAt_createTask_commit.
      destruct (decide (k = k)); [reflexivity | congruence].
    + unfold s1, createTask_commit; cbn [taskIds]. rewrite <- app_assoc. reflexivity.
Qed.

Lemma C10_untitled_task_is_absent_witness :
  view (getTask t1) untitled = inr TaskDoesNotExist /\
  taskIds untitled = [t1] /\
  taskIds (@after (kms clear42) (mkEnv w2 1500)
             (CreateTask t1 "Relabel" 9 proof1 5 50) untitled) = [t1; t1].
Proof.
  destruct (C10_untitled_task_is_absent (kms clear42) (mkEnv requester1 1000) t1 7
              proof1 100 4600 7 initial) as (_ & _ & Hids & Hget & _ & _ & Hre).
  - vm_compute. reflexivity.
  - vm_compute. reflexivity.
  - vm_compute. reflexivity.
  - split; [exact Hget|]. split; [exact Hids|].
    destruct (Hre (mkEnv w2 1500) "Relabel"%string 9 proof1 5 50 9) as (_ & _ & H2).
    + vm_compute. reflexivity.
    + vm_compute. reflexivity.
    + exact H2.
Defined.

(** * Further properties of the contract *)

(** ** What each commit leaves alone *)

Lemma workerAt_createTask_commit env k t h r d s a :
  workerAt (createTask_commit env k t h r d s) a = workerAt s a.
Proof. reflexivity. Qed.

Lemma assigneeOf_createTask_commit env k t h r d s k' :
  assigneeOf (createTask_commit env k t h r d s) k' = assigneeOf s k'.
Proof. reflexivity. Qed.

Lemma taskAt_registerWorker_commit env s k :
  taskAt (registerWorker_commit env s) k = taskAt s k.
Proof. reflexivity. Qed.

Lemma assigneeOf_registerWorker_commit env s k :
  assigneeOf (registerWorker_commit env s) k = assigneeOf s k.
Proof. reflexivity. Qed.

Lemma taskAt_assignTask_commit env k s k' :
  taskAt (assignTask_commit env k s) k' = taskAt s k'.
Proof. reflexivity. Qed.

Lemma workerAt_assignTask_commit env k s a :
  workerAt (assignTask_commit env k s) a = workerAt s a.
Proof. reflexivity. Qed.

Lemma assigneeOf_submitTaskResult_commit (fhe : FHE) env k res s k' :
  assigneeOf (submitTaskResult_commit env k res s) k' = assigneeOf s k'.
Proof. reflexivity. Qed.

Create Rewrite HintDb commit.
#[local] Hint Rewrite
  taskAt_createTask_commit workerAt_createTask_commit assigneeOf_createTask_commit
  taskAt_registerWorker_commit workerAt_registerWorker_commit
  assigneeOf_registerWorker_commit
  taskAt_assignTask_commit workerAt_assignTask_commit assigneeOf_assignTask_commit
  @taskAt_submitTaskResult_commit @workerAt_submitTaskResult_commit
  @assigneeOf_submitTaskResult_commit : commit.

(** Case analysis on a committed step, with the names used throughout. *)
Ltac step_cases H :=
  destruct H as [k0 t0 e0 p0 r0 d0 h0 Ht0 Hh0 Hi0|Hz0|k0 Ht0 Ha0 Has0 Hreg0
                |k0 res0 prf0 Ht0 Has0 Hnc0 Hd0 Hs0 H1_0 H10_0].

Section Induction.
Context {fhe : FHE}.

(** Induction over the reachable states, one committed step at a time. *)
Lemma reachable_ind_committed (P : State -> Prop) :
  P initial ->
  (forall s env c s', reachable s -> P s -> committed env s c s' -> P s') ->
  forall s, reachable s -> P s.
Proof.
  intros H0 Hstep s Hr. induction Hr as [|s env c Hr IH]; [exact H0|].
  destruct (after_cases env c s) as [->|Hc]; [exact IH|].
  eapply Hstep; eassumption.
Qed.

(** A property every committed step keeps is kept by every run. *)
Lemma run_preserves (P : State -> Prop) :
  (forall s env c s', P s -> committed env s c s' -> P s') ->
  forall cs s, P s -> P (run cs s).
Proof.
  intros Hstep cs. induction cs as [|[env c] cs IH]; intros s Hs; cbn [run]; auto.
  apply IH. destruct (after_cases env c s) as [->|Hc]; [exact Hs|].
  eapply Hstep; eassumption.
Qed.

Lemma run_app cs1 cs2 s : run (cs1 ++ cs2) s = run cs2 (run cs1 s).
Proof.
  revert s. induction cs1 as [|[env c] cs1 IH]; intros s; cbn [run app]; auto.
Qed.

End Induction.

(** ** The worker registry *)

Lemma getWorker_eq a s :
  getWorker a s =
  if negb (workerAddress (workerAt s a) =? 0)
  then Ok ((reputation (workerAt s a), completedTasks (workerAt s a)), s)
  else Revert WorkerNotRegistered s.
Proof.
  unfold getWorker, bind, gets, require, ret, revert.
  destruct (negb _); reflexivity.
Qed.

Lemma occurrences_snoc a l x :
  occurrences a (l ++ [x]) = (occurrences a l + if (a =? x)%Z then 1 else 0)%nat.
Proof.
  unfold occurrences. rewrite List.filter_app, length_app. cbn [List.filter].
  destruct (a =? x); reflexivity.
Qed.

Section Workers.
Context {fhe : FHE}.

Lemma registerWorker_succeeds env s :
  workerAddress (workerAt s (msg_sender env)) = 0 ->
  transact env RegisterWorker s = (registerWorker_commit env s, None).
Proof.
  intros H. unfold transact; cbn [dispatch]. rewrite registerWorker_eq, H. reflexivity.
Qed.

Lemma registerWorker_refused env s :
  workerAddress (workerAt s (msg_sender env)) <> 0 ->
  transact env RegisterWorker s = (s, Some WorkerAlreadyRegistered).
Proof.
  intros H. unfold transact; cbn [dispatch]. rewrite registerWorker_eq.
  destruct (_ =? 0) eqn:E; [apply Z.eqb_eq in E; contradiction | reflexivity].
Qed.

Lemma workerAddress_committed env c s s' a :
  workerAddress (workerAt s a) <> 0 ->
  committed env s c s' ->
  workerAddress (workerAt s' a) = workerAddress (workerAt s a).
Proof.
  intros Ha Hc. step_cases Hc; autorewrite with commit; try reflexivity.
  - destruct (decide (msg_sender env = a)) as [<-|]; [contradiction | reflexivity].
  - destruct (decide (msg_sender env = a)) as [<-|]; reflexivity.
Qed.

End Workers.

(** A sender other than the zero address that is not registered registers
    with success: [getWorker] then gives reputation 0 and 0 completed tasks,
    the sender is appended to [workerAddresses], no other worker record
    changes, and a second [registerWorker] by the sender is refused. *)
Theorem registerWorker_then_getWorker (fhe : FHE) env s :
  msg_sender env <> 0 ->
  workerAddress (workerAt s (msg_sender env)) = 0 ->
  let s' := after env RegisterWorker s in
  outcome env RegisterWorker s = None /\
  view (getWorker (msg_sender env)) s' = inl (0, 0) /\
  workerAddresses s' = workerAddresses s ++ [msg_sender env] /\
  (forall a, a <> msg_sender env -> workerAt s' a = workerAt s a) /\
  (forall now, outcome (mkEnv (msg_sender env) now) RegisterWorker s'
               = Some WorkerAlreadyRegistered).
Proof.
  intros Hne Hun. cbv zeta.
  pose proof (registerWorker_succeeds env s Hun) as Htx.
  unfold after, outcome. rewrite Htx. cbn [fst snd].
  assert (Hw : workerAt (registerWorker_commit env s) (msg_sender env)
               = mkWorker (msg_sender env) 0 0).
  { rewrite workerAt_registerWorker_commit.
    destruct (decide (msg_sender env = msg_sender env)); [reflexivity | congruence]. }
  split; [reflexivity|]. split; [|split; [reflexivity|split]].
  - unfold view. rewrite getWorker_eq, Hw. cbn [workerAddress].
    destruct (msg_sender env =? 0) eqn:E; [apply Z.eqb_eq in E; contradiction|].
    reflexivity.
  - intros a Ha. rewrite workerAt_registerWorker_commit.
    destruct (decide (msg_sender env = a)); [congruence | reflexivity].
  - intros now. rewrite registerWorker_refused; [reflexivity|].
    cbn [msg_sender]. rewrite Hw. exact Hne.
Qed.

Lemma registerWorker_then_getWorker_witness :
  view (getWorker w2) (@after (kms clear42) (mkEnv w2 3000) RegisterWorker completed)
    = inl (0, 0) /\
  workerAddresses (@after (kms clear42) (mkEnv w2 3000) RegisterWorker completed)
    = [w1; w2].
Proof.
  destruct (registerWorker_then_getWorker (kms clear42) (mkEnv w2 3000) completed)
    as (_ & Hg & Hl & _).
  - vm_compute. discriminate.
  - vm_compute. reflexivity.
  - split; [exact Hg | exact Hl].
Defined.

(** A registered worker stays registered through every sequence of
    transactions, from any state, and each later [registerWorker] of that
    worker fails with "Worker already registered". *)
Theorem registration_is_permanent (fhe : FHE) s a cs :
  workerAddress (workerAt s a) <> 0 ->
  workerAddress (workerAt (run cs s) a) = workerAddress (workerAt s a) /\
  (forall now, outcome (mkEnv a now) RegisterWorker (run cs s)
               = Some WorkerAlreadyRegistered).
Proof.
  intros Ha.
  assert (Hrun : workerAddress (workerAt (run cs s) a) = workerAddress (workerAt s a)).
  { apply (run_preserves
             (fun s' => workerAddress (workerAt s' a) = workerAddress (workerAt s a)));
      [|reflexivity].
    intros s1 env c s2 H1 Hc. rewrite <- H1.
    apply (workerAddress_committed env c); [congruence | exact Hc]. }
  split; [exact Hrun|].
  intros now. unfold outcome. rewrite registerWorker_refused; [reflexivity|].
  cbn [msg_sender]. congruence.
Qed.

Lemma registration_is_permanent_witness :
  workerAddress (workerAt
    (@run (kms clear42)
       [ (mkEnv w1 1200, RegisterWorker);
         (mkEnv w1 1300, SubmitTaskResult t1 clear42 proof1);
         (mkEnv w2 1400, RegisterWorker) ] assigned) w1) = w1.
Proof.
  refine (proj1 (registration_is_permanent (kms clear42) assigned w1 _ _)).
  vm_compute. discriminate.
Defined.

(** ** Append-only lists *)

Section AppendOnly.
Context {fhe : FHE}.

Lemma lists_grow_committed env c s s' :
  committed env s c s' ->
  taskIds s `prefix_of` taskIds s' /\
  workerAddresses s `prefix_of` workerAddresses s' /\
  log s `prefix_of` log s' /\
  acl s `prefix_of` acl s'.
Proof.
  intros Hc. step_cases Hc;
    cbn [taskIds workerAddresses log acl createTask_commit registerWorker_commit
         assignTask_commit submitTaskResult_commit];
    rewrite <- ?app_assoc;
    repeat split; first [reflexivity | apply prefix_app_r; reflexivity].
Qed.

Lemma lists_grow_run cs s :
  taskIds s `prefix_of` taskIds (run cs s) /\
  workerAddresses s `prefix_of` workerAddresses (run cs s) /\
  log s `prefix_of` log (run cs s) /\
  acl s `prefix_of` acl (run cs s).
Proof.
  apply (run_preserves
           (fun s' => taskIds s `prefix_of` taskIds s' /\
                      workerAddresses s `prefix_of` workerAddresses s' /\
                      log s `prefix_of` log s' /\
                      acl s `prefix_of` acl s')).
  - intros s1 env c s2 (H1 & H2 & H3 & H4) Hc.
    destruct (lists_grow_committed env c s1 s2 Hc) as (G1 & G2 & G3 & G4).
    repeat split; etransitivity; eassumption.
  - repeat split; reflexivity.
Qed.

End AppendOnly.

(** [taskIds], [workerAddresses], the event log and the list of grants
    are append-only: after any sequence of transactions, from any state,
    each still starts with what it held before. *)
Theorem lists_are_append_only (fhe : FHE) cs s :
  taskIds s `prefix_of` taskIds (run cs s) /\
  workerAddresses s `prefix_of` workerAddresses (run cs s) /\
  log s `prefix_of` log (run cs s) /\
  acl s `prefix_of` acl (run cs s).
Proof. apply lists_grow_run. Qed.

(** ** The list of workers and the worker records *)

Section WorkerList.
Context {fhe : FHE}.

Lemma occurrences_registered s :
  reachable s ->
  forall a, a <> 0 ->
    occurrences a (workerAddresses s)
    = if workerAddress (workerAt s a) =? 0 then 0%nat else 1%nat.
Proof.
  intros Hr. pattern s. revert s Hr. apply reachable_ind_committed.
  - intros a Ha. reflexivity.
  - intros s env c s' Hr IH Hc a Ha. specialize (IH a Ha).
    step_cases Hc; autorewrite with commit; try exact IH.
    + cbn [workerAddresses registerWorker_commit]. rewrite occurrences_snoc, IH.
      destruct (decide (msg_sender env = a)) as [<-|Hne].
      * rewrite Hz0, !Z.eqb_refl. cbn [workerAddress].
        destruct (msg_sender env =? 0) eqn:E; [apply Z.eqb_eq in E; contradiction|].
        reflexivity.
      * destruct (a =? msg_sender env) eqn:E; [apply Z.eqb_eq in E; congruence|].
        apply Nat.add_0_r.
    + cbn [workerAddresses submitTaskResult_commit]. rewrite IH.
      destruct (decide (msg_sender env = a)) as [<-|]; reflexivity.
Qed.

End WorkerList.

(** In a reachable state, for every address but zero: either [getWorker]
    answers with the worker's counters and the address occurs exactly once
    in [workerAddresses], or [getWorker] fails with "Worker not registered"
    and the address does not occur there. *)
Theorem workerAddresses_lists_registered (fhe : FHE) s a :
  reachable s ->
  a <> 0 ->
  (view (getWorker a) s = inl (reputation (workerAt s a), completedTasks (workerAt s a)) /\
   occurrences a (workerAddresses s) = 1%nat) \/
  (view (getWorker a) s = inr WorkerNotRegistered /\
   occurrences a (workerAddresses s) = 0%nat).
Proof.
  intros Hr Ha. pose proof (occurrences_registered s Hr a Ha) as Ho.
  unfold view. rewrite getWorker_eq.
  destruct (workerAddress (workerAt s a) =? 0); cbn [negb]; [right | left]; auto.
Qed.

Lemma workerAddresses_lists_registered_witness :
  occurrences w1 (workerAddresses completed) = 1%nat /\
  occurrences w2 (workerAddresses completed) = 0%nat.
Proof.
  assert (Hr : @reachable (kms clear42) completed).
  { unfold completed, assigned.
    apply reachable_step, reachable_run, reachable_initial. }
  split.
  - destruct (workerAddresses_lists_registered (kms clear42) completed w1 Hr)
      as [[_ H]|[H _]]; [vm_compute; discriminate | exact H |].
    vm_compute in H. discriminate.
  - destruct (workerAddresses_lists_registered (kms clear42) completed w2 Hr)
      as [[H _]|[_ H]]; [vm_compute; discriminate | | exact H].
    vm_compute in H. discriminate.
Defined.

(** ** Assignments, completions and the event log *)

Lemma assignedTo_snoc k l e :
  assignedTo k (l ++ [e]) =
  assignedTo k l ++ match e with
                    | TaskAssigned k' w => if decide (k' = k) then [w] else []
                    | _ => []
                    end.
Proof.
  unfold assignedTo. rewrite omap_app. f_equal.
  destruct e as [k' w|k' w|k' w|hs cs]; cbn; try reflexivity.
  destruct (decide (k' = k)); reflexivity.
Qed.

Lemma completedBy_snoc k l e :
  completedBy k (l ++ [e]) =
  completedBy k l ++ match e with
                     | TaskCompleted k' w => if decide (k' = k) then [w] else []
                     | _ => []
                     end.
Proof.
  unfold completedBy. rewrite omap_app. f_equal.
  destruct e as [k' w|k' w|k' w|hs cs]; cbn; try reflexivity.
  destruct (decide (k' = k)); reflexivity.
Qed.

Lemma completionsOf_snoc a l e :
  completionsOf a (l ++ [e]) =
  completionsOf a l ++ match e with
                       | TaskCompleted k w => if decide (w = a) then [k] else []
                       | _ => []
                       end.
Proof.
  unfold completionsOf. rewrite omap_app. f_equal.
  destruct e as [k' w|k' w|k' w|hs cs]; cbn; try reflexivity.
  destruct (decide (w = a)); reflexivity.
Qed.

Lemma createdKeys_snoc l e :
  createdKeys (l ++ [e]) =
  createdKeys l ++ match e with TaskCreated k _ => [k] | _ => [] end.
Proof.
  unfold createdKeys. rewrite omap_app. f_equal.
  destruct e; reflexivity.
Qed.

Section Assignments.
Context {fhe : FHE}.

Lemma registered_is_nonzero s a :
  reachable s -> workerAddress (workerAt s a) <> 0 -> a <> 0.
Proof.
  intros Hr Hw. destruct (wf_worker s (reachable_wf s Hr) a); congruence.
Qed.

(** An assignee is a registered worker, and the task it holds exists. *)
Lemma assignee_registered s :
  reachable s ->
  forall k, assigneeOf s k <> 0 ->
    title (taskAt s k) <> EmptyString /\
    workerAddress (workerAt s (assigneeOf s k)) <> 0.
Proof.
  intros Hr. pattern s. revert s Hr. apply reachable_ind_committed.
  - intros k H. exfalso. apply H. reflexivity.
  - intros s env c s' Hr IH Hc k. specialize (IH k).
    step_cases Hc; autorewrite with commit.
    + intros Hk. destruct (IH Hk) as [Ht Hw].
      destruct (decide (k0 = k)) as [->|]; [contradiction | auto].
    + intros Hk. destruct (IH Hk) as [Ht Hw]. split; [exact Ht|].
      destruct (decide (msg_sender env = assigneeOf s k)) as [E|]; [|exact Hw].
      cbn [workerAddress]. congruence.
    + destruct (decide (k0 = k)) as [<-|]; [|exact IH].
      intros _. split; assumption.
    + intros Hk. destruct (IH Hk) as [Ht Hw].
      split.
      * destruct (decide (k0 = k)) as [<-|]; [exact Ht | exact Ht].
      * destruct (decide (msg_sender env = assigneeOf s k)) as [E|]; [|exact Hw].
        cbn [workerAddress]. rewrite E. exact Hw.
Qed.

(** The log holds one [TaskAssigned] event for an assigned key, naming the
    assignee, and none for a key without assignee. *)
Lemma assignedTo_log s :
  reachable s ->
  forall k, assignedTo k (log s)
            = if assigneeOf s k =? 0 then [] else [assigneeOf s k].
Proof.
  intros Hr. pattern s. revert s Hr. apply reachable_ind_committed.
  - intros k. reflexivity.
  - intros s env c s' Hr IH Hc k. specialize (IH k).
    step_cases Hc; autorewrite with commit;
      cbn [log createTask_commit registerWorker_commit assignTask_commit
           submitTaskResult_commit];
      rewrite ?assignedTo_snoc, ?app_nil_r; try exact IH.
    destruct (decide (k0 = k)) as [<-|]; [|rewrite app_nil_r; exact IH].
    rewrite IH, Has0. cbn.
    pose proof (registered_is_nonzero s _ Hr Hreg0) as Hne.
    destruct (msg_sender env =? 0) eqn:E; [apply Z.eqb_eq in E; contradiction|].
    reflexivity.
Qed.

(** For every address but zero, [completedTasks] counts the
    [TaskCompleted] events of that worker, and is 0 while the worker is
    not registered. *)
Lemma completedTasks_log s :
  reachable s ->
  forall a, a <> 0 ->
    completedTasks (workerAt s a) = Z.of_nat (length (completionsOf a (log s))) /\
    (workerAddress (workerAt s a) = 0 -> completedTasks (workerAt s a) = 0).
Proof.
  intros Hr. pattern s. revert s Hr. apply reachable_ind_committed.
  - intros a Ha. split; reflexivity.
  - intros s env c s' Hr IH Hc a Ha. specialize (IH a Ha). destruct IH as [IH1 IH2].
    step_cases Hc; autorewrite with commit;
      cbn [log createTask_commit registerWorker_commit assignTask_commit
           submitTaskResult_commit];
      rewrite ?completionsOf_snoc, ?app_nil_r; try (split; assumption).
    + destruct (decide (msg_sender env = a)) as [<-|]; [|split; assumption].
      cbn [completedTasks workerAddress]. split; [|reflexivity].
      rewrite <- IH1. symmetry. apply IH2, Hz0.
    + destruct (decide (msg_sender env = a)) as [<-|Hne].
      * cbn [completedTasks workerAddress]. rewrite length_app. cbn [length].
        split; [lia|]. intros Hun. exfalso.
        assert (Hk : assigneeOf s k0 <> 0) by congruence.
        destruct (assignee_registered s Hr k0 Hk) as [_ Hw]. congruence.
      * rewrite app_nil_r. split; assumption.
Qed.

End Assignments.

(** In a reachable state a key either has no assignee and no
    [TaskAssigned] event, or it has an assignee, exactly one [TaskAssigned]
    event, which names that assignee, a task with a non-empty title, and
    the assignee is a registered worker. *)
Theorem assignment_matches_log (fhe : FHE) s k :
  reachable s ->
  (assigneeOf s k = 0 /\ assignedTo k (log s) = []) \/
  (assigneeOf s k <> 0 /\
   assignedTo k (log s) = [assigneeOf s k] /\
   title (taskAt s k) <> EmptyString /\
   workerAddress (workerAt s (assigneeOf s k)) = assigneeOf s k).
Proof.
  intros Hr. pose proof (assignedTo_log s Hr k) as Hl.
  destruct (assigneeOf s k =? 0) eqn:E.
  - left. apply Z.eqb_eq in E. auto.
  - right. apply Z.eqb_neq in E.
    destruct (assignee_registered s Hr k E) as [Ht Hw].
    repeat split; auto.
    destruct (wf_worker s (reachable_wf s Hr) (assigneeOf s k)); congruence.
Qed.

Lemma assignment_matches_log_witness :
  assignedTo t1 (log completed) = [w1] /\
  assignedTo "t2" (log completed) = [].
Proof.
  assert (Hr : @reachable (kms clear42) completed).
  { unfold completed, assigned.
    apply reachable_step, reachable_run, reachable_initial. }
  split.
  - destruct (assignment_matches_log (kms clear42) completed t1 Hr)
      as [[H _]|(_ & H & _)]; [vm_compute in H; discriminate | exact H].
  - destruct (assignment_matches_log (kms clear42) completed "t2" Hr)
      as [[_ H]|(H & _)]; [exact H | exfalso; apply H; vm_compute; reflexivity].
Defined.

(** In a reachable state the log holds exactly one [TaskCompleted] event
    for each completed key, naming the key's assignee, and none for a key
    that is not completed. *)
Theorem completion_matches_log (fhe : FHE) s k :
  reachable s ->
  completedBy k (log s) = if isCompleted (taskAt s k) then [assigneeOf s k] else [].
Proof.
  intros Hr. revert k. pattern s. revert s Hr. apply reachable_ind_committed.
  - intros k. reflexivity.
  - intros s env c s' Hr IH Hc k. specialize (IH k).
    pose proof (reachable_wf s Hr) as Hwf.
    step_cases Hc; autorewrite with commit;
      cbn [log createTask_commit registerWorker_commit assignTask_commit
           submitTaskResult_commit];
      rewrite ?completedBy_snoc, ?app_nil_r; try exact IH.
    + destruct (decide (k0 = k)) as [<-|]; [|exact IH].
      cbn [isCompleted]. rewrite IH.
      destruct (isCompleted (taskAt s k0)) eqn:Hc; [|reflexivity].
      destruct (wf_completed s Hwf k0 Hc) as [Hne _]. contradiction.
    + destruct (decide (k0 = k)) as [<-|]; [|exact IH].
      rewrite IH.
      destruct (isCompleted (taskAt s k0)) eqn:Hc; [|reflexivity].
      destruct (wf_completed s Hwf k0 Hc) as [_ Hina]. congruence.
    + destruct (decide (k0 = k)) as [<-|]; [|rewrite app_nil_r; exact IH].
      rewrite IH, Hnc0. cbn. congruence.
Qed.

Lemma completion_matches_log_witness :
  completedBy t1 (log completed) = [w1] /\ completedBy t1 (log assigned) = [].
Proof.
  split.
  - refine (completion_matches_log (kms clear42) completed t1 _).
    unfold completed, assigned.
    apply reachable_step, reachable_run, reachable_initial.
  - refine (completion_matches_log (kms clear42) assigned t1 _).
    unfold assigned. apply reachable_run, reachable_initial.
Defined.

(** In a reachable state, for every address but zero, [completedTasks] is
    the number of [TaskCompleted] events of that worker in the log and
    [reputation] is ten times that number. *)
Theorem counters_count_completions (fhe : FHE) s a :
  reachable s ->
  a <> 0 ->
  completedTasks (workerAt s a) = Z.of_nat (length (completionsOf a (log s))) /\
  reputation (workerAt s a) = 10 * Z.of_nat (length (completionsOf a (log s))).
Proof.
  intros Hr Ha. destruct (completedTasks_log s Hr a Ha) as [Hc _].
  destruct (wf_reputation s (reachable_wf s Hr) a) as [_ H10].
  split; [exact Hc | rewrite H10, Hc; reflexivity].
Qed.

Lemma counters_count_completions_witness :
  completedTasks (workerAt completed w1) = 1 /\ reputation (workerAt completed w1) = 10.
Proof.
  refine (counters_count_completions (kms clear42) completed w1 _ _).
  - unfold completed, assigned.
    apply reachable_step, reachable_run, reachable_initial.
  - vm_compute. discriminate.
Defined.

(** From a reachable state, the [completedTasks] and the [reputation] of
    every address but zero never decrease, whatever transactions follow. *)
Theorem counters_never_decrease (fhe : FHE) s a cs :
  reachable s ->
  a <> 0 ->
  completedTasks (workerAt s a) <= completedTasks (workerAt (run cs s) a) /\
  reputation (workerAt s a) <= reputation (workerAt (run cs s) a).
Proof.
  intros Hr Ha. pose proof (reachable_run cs s Hr) as Hr'.
  destruct (completedTasks_log s Hr a Ha) as [Hc _].
  destruct (completedTasks_log (run cs s) Hr' a Ha) as [Hc' _].
  destruct (wf_reputation s (reachable_wf s Hr) a) as [_ Hp].
  destruct (wf_reputation (run cs s) (reachable_wf _ Hr') a) as [_ Hp'].
  destruct (lists_grow_run cs s) as (_ & _ & [l Hl] & _).
  assert (Hlen : (length (completionsOf a (log s))
                  <= length (completionsOf a (log (run cs s))))%nat).
  { rewrite Hl. unfold completionsOf. rewrite omap_app, length_app. lia. }
  lia.
Qed.

Lemma counters_never_decrease_witness :
  completedTasks (workerAt assigned w1)
  <= completedTasks (workerAt
       (@run (kms clear42)
          [ (mkEnv w1 1200, SubmitTaskResult t1 clear42 proof1);
            (mkEnv w1 1300, RegisterWorker) ] assigned) w1).
Proof.
  refine (proj1 (counters_never_decrease (kms clear42) assigned w1 _ _ _)).
  - unfold assigned. apply reachable_run, reachable_initial.
  - vm_compute. discriminate.
Defined.

(** ** The stored task record *)

Section TaskRecord.
Context {fhe : FHE}.

(** A committed step leaves the record of a titled task as it was, unless
    it is a [submitTaskResult] on that key by the assignee, no later than
    the deadline, which sets the two flags. *)
Lemma taskAt_committed env c s s' k :
  title (taskAt s k) <> EmptyString ->
  committed env s c s' ->
  taskAt s' k = taskAt s k \/
  (isCompleted (taskAt s k) = false /\
   block_timestamp env <= deadline (taskAt s k) /\
   assigneeOf s k = msg_sender env /\
   taskAt s' k = set_isActive false (set_isCompleted true (taskAt s k))).
Proof.
  intros Ht Hc. step_cases Hc; autorewrite with commit; auto.
  - destruct (decide (k0 = k)) as [->|]; [contradiction | auto].
  - destruct (decide (k0 = k)) as [->|]; auto.
Qed.

Lemma task_fields_committed env c s s' k :
  title (taskAt s k) <> EmptyString ->
  committed env s c s' ->
  title (taskAt s' k) = title (taskAt s k) /\
  encryptedData (taskAt s' k) = encryptedData (taskAt s k) /\
  rewardAmount (taskAt s' k) = rewardAmount (taskAt s k) /\
  deadline (taskAt s' k) = deadline (taskAt s k) /\
  requester (taskAt s' k) = requester (taskAt s k).
Proof.
  intros Ht Hc.
  destruct (taskAt_committed env c s s' k Ht Hc) as [->|(_ & _ & _ & ->)];
    repeat split; reflexivity.
Qed.

End TaskRecord.

(** Once a task has a non-empty title, its title, ciphertext handle,
    reward, deadline and requester are the same after any sequence of
    transactions, from any state. *)
Theorem task_record_is_immutable (fhe : FHE) cs s k :
  title (taskAt s k) <> EmptyString ->
  title (taskAt (run cs s) k) = title (taskAt s k) /\
  encryptedData (taskAt (run cs s) k) = encryptedData (taskAt s k) /\
  rewardAmount (taskAt (run cs s) k) = rewardAmount (taskAt s k) /\
  deadline (taskAt (run cs s) k) = deadline (taskAt s k) /\
  requester (taskAt (run cs s) k) = requester (taskAt s k).
Proof.
  intros Ht.
  apply (run_preserves
           (fun s' => title (taskAt s' k) = title (taskAt s k) /\
                      encryptedData (taskAt s' k) = encryptedData (taskAt s k) /\
                      rewardAmount (taskAt s' k) = rewardAmount (taskAt s k) /\
                      deadline (taskAt s' k) = deadline (taskAt s k) /\
                      requester (taskAt s' k) = requester (taskAt s k)));
    [|repeat split; reflexivity].
  intros s1 env c s2 (H1 & H2 & H3 & H4 & H5) Hc.
  assert (Ht1 : title (taskAt s1 k) <> EmptyString) by congruence.
  destruct (task_fields_committed env c s1 s2 k Ht1 Hc) as (G1 & G2 & G3 & G4 & G5).
  repeat split; congruence.
Qed.

Lemma task_record_is_immutable_witness :
  title (taskAt
    (@run (kms clear42)
       [ (mkEnv w2 1100, CreateTask t1 "Other" 8 proof1 1 1);
         (mkEnv w1 1200, SubmitTaskResult t1 clear42 proof1) ] assigned) t1)
  = "Label images"%string.
Proof.
  refine (proj1 (task_record_is_immutable (kms clear42) _ assigned t1 _)).
  vm_compute. discriminate.
Defined.

(** A task with a non-empty title that is not completed stays exactly as
    it is, flags included, through every sequence of transactions whose
    timestamps are all after its deadline: it is never completed and its
    phase never changes. *)
Theorem expired_task_is_frozen (fhe : FHE) cs s k :
  title (taskAt s k) <> EmptyString ->
  isCompleted (taskAt s k) = false ->
  Forall (fun ec => deadline (taskAt s k) < block_timestamp (fst ec)) cs ->
  taskAt (run cs s) k = taskAt s k.
Proof.
  revert s. induction cs as [|[env c] cs IH]; intros s Ht Hc Hall; [reflexivity|].
  cbn [run]. inversion Hall as [|x l Hhd Htl]; subst. cbn [fst] in Hhd.
  assert (Hstep : taskAt (after env c s) k = taskAt s k).
  { destruct (after_cases env c s) as [->|Hcm]; [reflexivity|].
    destruct (taskAt_committed env c s _ k Ht Hcm) as [H|(_ & Hd & _)]; [exact H | lia]. }
  rewrite <- Hstep. apply IH; rewrite Hstep; assumption.
Qed.

Lemma expired_task_is_frozen_witness :
  taskAt
    (@run (kms clear42)
       [ (mkEnv w1 4601, SubmitTaskResult t1 clear42 proof1);
         (mkEnv w2 5000, RegisterWorker);
         (mkEnv w1 9000, SubmitTaskResult t1 clear42 proof1) ] assigned) t1
  = mkTask "Label images" 7 100 4600 requester1 true false.
Proof.
  refine (expired_task_is_frozen (kms clear42) _ assigned t1 _ _ _).
  - vm_compute. discriminate.
  - vm_compute. reflexivity.
  - repeat constructor.
Defined.

(** ** Created tasks *)

Section Created.
Context {fhe : FHE}.

Lemma created_tasks s :
  reachable s ->
  forall k,
    (title (taskAt s k) <> EmptyString ->
     isActive (taskAt s k) = negb (isCompleted (taskAt s k))) /\
    (isActive (taskAt s k) || isCompleted (taskAt s k) = true ->
     isInitialized (encryptedData (taskAt s k)) = true /\
     AllowThis (encryptedData (taskAt s k)) ∈ acl s /\
     MakePubliclyDecryptable (encryptedData (taskAt s k)) ∈ acl s /\
     k ∈ taskIds s).
Proof.
  intros Hr. pattern s. revert s Hr. apply reachable_ind_committed.
  - intros k. split.
    + intros H. exfalso. apply H. reflexivity.
    + cbn. discriminate.
  - intros s env c s' Hr IH Hc k. specialize (IH k). destruct IH as [IH1 IH2].
    step_cases Hc; autorewrite with commit;
      cbn [acl taskIds createTask_commit registerWorker_commit assignTask_commit
           submitTaskResult_commit]; try (split; assumption).
    + destruct (decide (k0 = k)) as [<-|].
      * cbn [title isActive isCompleted encryptedData negb orb].
        split; [reflexivity|]. intros _. split; [exact Hi0|].
        rewrite !elem_of_app, !elem_of_cons. tauto.
      * split; [exact IH1|]. intros H. destruct (IH2 H) as (G1 & G2 & G3 & G4).
        rewrite !elem_of_app. tauto.
    + destruct (decide (k0 = k)) as [<-|]; [|split; assumption].
      cbn [title isActive isCompleted encryptedData negb orb set_isActive
           set_isCompleted].
      split; [reflexivity|]. intros _. apply IH2.
      rewrite (IH1 Ht0), Hnc0. reflexivity.
Qed.

End Created.

(** In a reachable state, every task [getTask] answers for is either
    active or completed, never neither; its stored handle is initialized,
    both grants ([allowThis], [makePubliclyDecryptable]) were made for that
    handle, and its key is in [taskIds]. *)
Theorem existing_task_is_well_formed (fhe : FHE) s k :
  reachable s ->
  title (taskAt s k) <> EmptyString ->
  isActive (taskAt s k) = negb (isCompleted (taskAt s k)) /\
  isInitialized (encryptedData (taskAt s k)) = true /\
  AllowThis (encryptedData (taskAt s k)) ∈ acl s /\
  MakePubliclyDecryptable (encryptedData (taskAt s k)) ∈ acl s /\
  k ∈ taskIds s.
Proof.
  intros Hr Ht. destruct (created_tasks s Hr k) as [H1 H2].
  split; [exact (H1 Ht)|]. apply H2. rewrite (H1 Ht).
  destruct (isCompleted (taskAt s k)); reflexivity.
Qed.

Lemma existing_task_is_well_formed_witness :
  isActive (taskAt completed t1) = false /\ t1 ∈ taskIds completed.
Proof.
  destruct (existing_task_is_well_formed (kms clear42) completed t1)
    as (Ha & _ & _ & _ & Hin).
  - unfold completed, assigned.
    apply reachable_step, reachable_run, reachable_initial.
  - vm_compute. discriminate.
  - split; [exact Ha | exact Hin].
Defined.

(** In a reachable state [taskIds] is the list of the keys of the
    [TaskCreated] events in the log, in the same order. *)
Theorem taskIds_match_created_events (fhe : FHE) s :
  reachable s -> taskIds s = createdKeys (log s).
Proof.
  intros Hr. pattern s. revert s Hr. apply reachable_ind_committed; [reflexivity|].
  intros s env c s' Hr IH Hc.
  step_cases Hc;
    cbn [log taskIds createTask_commit registerWorker_commit assignTask_commit
         submitTaskResult_commit];
    rewrite ?createdKeys_snoc, ?app_nil_r; congruence.
Qed.

Lemma taskIds_match_created_events_witness :
  taskIds completed = createdKeys (log completed).
Proof.
  refine (taskIds_match_created_events (kms clear42) completed _).
  unfold completed, assigned.
  apply reachable_step, reachable_run, reachable_initial.
Defined.

(** A successful [createTask] with a non-empty title: [getTask] on the key
    then gives the title, reward and deadline passed in, the sender as
    requester, active and not completed; the stored handle is the one the
    library gave for the input, initialized, with its two grants appended;
    the key is appended to [taskIds]; every other task, every worker
    record and every assignment is as before. *)
Theorem createTask_then_getTask (fhe : FHE) env k t e p r d s :
  t <> EmptyString ->
  outcome env (CreateTask k t e p r d) s = None ->
  let s' := after env (CreateTask k t e p r d) s in
  view (getTask k) s' = inl (t, r, d, msg_sender env, true, false) /\
  (exists h, fromExternal (msg_sender env) e p = Some h /\
             isInitialized h = true /\
             encryptedData (taskAt s' k) = h /\
             acl s' = acl s ++ [AllowThis h; MakePubliclyDecryptable h]) /\
  taskIds s' = taskIds s ++ [k] /\
  (forall k', k' <> k -> taskAt s' k' = taskAt s k') /\
  (forall a, workerAt s' a = workerAt s a) /\
  (forall k', assigneeOf s' k' = assigneeOf s k').
Proof.
  intros Hne Hok. cbv zeta.
  pose proof (outcome_None_committed _ _ _ Hok) as Hc.
  remember (after env (CreateTask k t e p r d) s) as s' eqn:Es.
  remember (CreateTask k t e p r d) as c eqn:Ec.
  destruct Hc as [k0 t0 e0 p0 r0 d0 h0 Ht0 Hh0 Hi0| | |]; try discriminate.
  injection Ec as -> -> -> -> -> ->.
  assert (Hk : taskAt (createTask_commit env k t h0 r d s) k
               = mkTask t h0 r d (msg_sender env) true false).
  { rewrite taskAt_createTask_commit.
    destruct (decide (k = k)); [reflexivity | congruence]. }
  split; [|split; [|split; [reflexivity|split; [|split; reflexivity]]]].
  - unfold view. rewrite getTask_eq, Hk. cbn [title].
    apply length_pos_iff_nonempty in Hne. rewrite Hne. reflexivity.
  - exists h0. rewrite Hk. repeat split; assumption.
  - intros k' Hk'. rewrite taskAt_createTask_commit.
    destruct (decide (k = k')); [congruence | reflexivity].
Qed.

Lemma createTask_then_getTask_witness :
  view (getTask "t2")
    (@after (kms clear42) (mkEnv w2 1500)
       (CreateTask "t2" "Count cars" 11 proof1 50 9999) completed)
  = inl ("Count cars"%string, 50, 9999, w2, true, false).
Proof.
  refine (proj1 (createTask_then_getTask (kms clear42) (mkEnv w2 1500) "t2"
                   "Count cars" 11 proof1 50 9999 completed _ _)).
  - discriminate.
  - vm_compute. reflexivity.
Defined.

(** ** Reverts *)

(** Whenever the body of an entry point reverts with one of the contract's
    own errors or an error of the library, it has written nothing at that
    point: every check comes before every write.  The one exception is the
    arithmetic panic, which only [submitTaskResult] can raise and which
    strikes after the task was flagged completed; there the rollback of
    the transaction is what restores the state. *)
Theorem revert_precedes_writes (fhe : FHE) env c s e d :
  dispatch env c s = Revert e d ->
  (e <> PanicOverflow -> d = s) /\
  (e = PanicOverflow ->
   exists k res prf, c = SubmitTaskResult k res prf /\
     isCompleted (taskAt s k) = false /\ isCompleted (taskAt d k) = true).
Proof.
  destruct c as [k t e' p r d'| |k|k res prf]; cbn [dispatch].
  - rewrite createTask_eq.
    destruct (String.length _ =? 0)%nat; [|intros [= <- <-]; split; congruence].
    destruct (fromExternal _ _ _) as [h|]; [|intros [= <- <-]; split; congruence].
    destruct (isInitialized h); [discriminate|intros [= <- <-]; split; congruence].
  - rewrite registerWorker_eq.
    destruct (_ =? 0); [discriminate|intros [= <- <-]; split; congruence].
  - rewrite assignTask_eq.
    destruct (0 <? _)%nat; [|intros [= <- <-]; split; congruence].
    destruct (isActive _); [|intros [= <- <-]; split; congruence].
    destruct (assigneeOf s k =? 0); [|intros [= <- <-]; split; congruence].
    destruct (negb _); [discriminate|intros [= <- <-]; split; congruence].
  - rewrite submitTaskResult_eq.
    destruct (0 <? _)%nat; [|intros [= <- <-]; split; congruence].
    destruct (assigneeOf s k =? _); [|intros [= <- <-]; split; congruence].
    destruct (isCompleted (taskAt s k)) eqn:Hc; cbn [negb];
      [intros [= <- <-]; split; congruence|].
    destruct (_ <=? deadline _); [|intros [= <- <-]; split; congruence].
    destruct (checkSignatures _ _ _); [|intros [= <- <-]; split; congruence].
    assert (Hflag : forall s0, tasks s0 = tasks (submitTaskResult_flagged k res s) ->
                               isCompleted (taskAt s0 k) = true).
    { intros s0 E. unfold taskAt. rewrite E.
      unfold submitTaskResult_flagged, with_tasks; cbn [tasks].
      rewrite lookup_insert_eq. reflexivity. }
    destruct (_ + 1 <=? MAX_UINT256).
    + destruct (_ + 10 <=? MAX_UINT256); [discriminate|].
      intros [= <- <-]. split; [congruence|]. intros _.
      exists k, res, prf. repeat split; [exact Hc | apply Hflag; reflexivity].
    + intros [= <- <-]. split; [congruence|]. intros _.
      exists k, res, prf. repeat split; [exact Hc | apply Hflag; reflexivity].
Qed.

Lemma revert_precedes_writes_witness :
  @submitTaskResult (kms clear42) submit_env t1 [x07] proof1 assigned
  = Revert InvalidKMSSignatures assigned.
Proof.
  assert (H : exists d, @dispatch (kms clear42) submit_env
                          (SubmitTaskResult t1 [x07] proof1) assigned
                        = Revert InvalidKMSSignatures d).
  { eexists. vm_compute. reflexivity. }
  destruct H as [d Hd].
  destruct (revert_precedes_writes (kms clear42) _ _ _ _ _ Hd) as [Hs _].
  cbn [dispatch] in Hd. rewrite Hd. f_equal. apply Hs. discriminate.
Defined.

(** ** Terminal and refused calls *)

(** In a reachable state a completed task refuses every mutating call on
    its key: [createTask] fails with "Task already exists", [assignTask]
    with "Task is not active", and [submitTaskResult] with "Task already
    completed" when the sender is the assignee and "Not assigned to this
    worker" otherwise. *)
Theorem completed_task_refuses_all (fhe : FHE) s k :
  reachable s ->
  isCompleted (taskAt s k) = true ->
  (forall env t e p r d,
     outcome env (CreateTask k t e p r d) s = Some TaskAlreadyExists) /\
  (forall env, outcome env (AssignTask k) s = Some TaskIsNotActive) /\
  (forall env res prf,
     outcome env (SubmitTaskResult k res prf) s
     = Some (if assigneeOf s k =? msg_sender env
             then TaskAlreadyCompleted else NotAssignedToThisWorker)).
Proof.
  intros Hr Hc.
  destruct (wf_completed s (reachable_wf s Hr) k Hc) as [Ht Hina].
  pose proof (proj2 (length_pos_iff_nonempty _) Ht) as Hpos.
  split; [|split].
  - intros env t e p r d. unfold outcome.
    rewrite (proj2 (createTask_titled_key_refused env k t e p r d s Ht)). reflexivity.
  - intros env. unfold outcome, transact; cbn [dispatch].
    rewrite assignTask_eq, Hpos, Hina. reflexivity.
  - intros env res prf. unfold outcome, transact; cbn [dispatch].
    rewrite submitTaskResult_eq, Hpos, Hc.
    destruct (assigneeOf s k =? msg_sender env); reflexivity.
Qed.

Lemma completed_task_refuses_all_witness :
  @outcome (kms clear42) (mkEnv w2 3000) (AssignTask t1) completed
  = Some TaskIsNotActive.
Proof.
  refine (proj1 (proj2 (completed_task_refuses_all (kms clear42) completed t1 _ _)) _).
  - unfold completed, assigned.
    apply reachable_step, reachable_run, reachable_initial.
  - vm_compute. reflexivity.
Defined.

(** [submitTaskResult] on an existing task by anyone but its assignee
    fails with "Not assigned to this worker", whether or not the task is
    completed, the deadline has passed or the proof verifies, and nothing
    changes. *)
Theorem submit_by_other_than_assignee_refused (fhe : FHE) env k res prf s :
  title (taskAt s k) <> EmptyString ->
  msg_sender env <> assigneeOf s k ->
  outcome env (SubmitTaskResult k res prf) s = Some NotAssignedToThisWorker /\
  after env (SubmitTaskResult k res prf) s = s.
Proof.
  intros Ht Hne. unfold outcome, after, transact; cbn [dispatch].
  rewrite submitTaskResult_eq.
  apply length_pos_iff_nonempty in Ht. rewrite Ht.
  destruct (assigneeOf s k =? msg_sender env) eqn:E;
    [apply Z.eqb_eq in E; congruence|].
  split; reflexivity.
Qed.

Lemma submit_by_other_than_assignee_refused_witness :
  @outcome (kms clear42) (mkEnv w2 2000) (SubmitTaskResult t1 clear42 proof1) assigned
  = Some NotAssignedToThisWorker.
Proof.
  refine (proj1 (submit_by_other_than_assignee_refused (kms clear42) (mkEnv w2 2000)
                   t1 clear42 proof1 assigned _ _)).
  - vm_compute. discriminate.
  - vm_compute. discriminate.
Defined.

(** ** The whole life cycle *)

Section LifeCycle.
Context {fhe : FHE}.

Lemma assignTask_succeeds env k s :
  title (taskAt s k) <> EmptyString ->
  isActive (taskAt s k) = true ->
  assigneeOf s k = 0 ->
  workerAddress (workerAt s (msg_sender env)) <> 0 ->
  transact env (AssignTask k) s = (assignTask_commit env k s, None).
Proof.
  intros Ht Ha Has Hw. unfold transact; cbn [dispatch]. rewrite assignTask_eq.
  apply length_pos_iff_nonempty in Ht. rewrite Ht, Ha, Has. cbn.
  destruct (_ =? 0) eqn:E; [apply Z.eqb_eq in E; contradiction | reflexivity].
Qed.

Lemma after_of_transact env c s s' o : transact env c s = (s', o) -> after env c s = s'.
Proof. intros H. unfold after. rewrite H. reflexivity. Qed.

End LifeCycle.

(** From a reachable state in which key [k] is free and [w] is a
    non-zero, unregistered address: creating [k] with a non-empty title
    and a valid input, registering [w], assigning [k] to [w] and submitting
    a result that verifies, no later than the deadline, all succeed in
    turn.  Afterwards [getTask] shows the task completed and not active
    with the data it was created with, [getWorker] shows reputation 10 and
    one completed task, [w] is the assignee, and the log has grown by
    exactly [TaskCreated], [TaskAssigned], the library's
    [PublicDecryptionVerified] with the task's handle and the submitted
    clear value, and [TaskCompleted], in that order. *)
Theorem create_register_assign_submit (fhe : FHE)
    s k t e p r d h req w res prf now1 now2 now3 now4 :
  reachable s ->
  title (taskAt s k) = EmptyString ->
  t <> EmptyString ->
  fromExternal req e p = Some h ->
  isInitialized h = true ->
  w <> 0 ->
  workerAddress (workerAt s w) = 0 ->
  checkSignatures [toBytes32 h] res prf = true ->
  now4 <= d ->
  let s' := run [ (mkEnv req now1, CreateTask k t e p r d);
                  (mkEnv w now2, RegisterWorker);
                  (mkEnv w now3, AssignTask k);
                  (mkEnv w now4, SubmitTaskResult k res prf) ] s in
  view (getTask k) s' = inl (t, r, d, req, false, true) /\
  view (getWorker w) s' = inl (10, 1) /\
  assigneeOf s' k = w /\
  log s' = log s ++ [TaskCreated k req; TaskAssigned k w;
                     PublicDecryptionVerified [toBytes32 h] res;
                     TaskCompleted k w].
Proof.
  intros Hr Hfree Ht Hh Hi Hw Hun Hs Hd. cbv zeta. cbn [run].
  assert (Hnoas : assigneeOf s k = 0).
  { destruct (decide (assigneeOf s k = 0)) as [|Hne]; [assumption|].
    destruct (assignee_registered s Hr k Hne) as [Hc _]. contradiction. }
  (* createTask *)
  rewrite (after_of_transact _ _ _ _ _
             (createTask_succeeds (mkEnv req now1) k t e p r d h s Hfree Hh Hi)).
  set (s1 := createTask_commit (mkEnv req now1) k t h r d s).
  assert (H1 : taskAt s1 k = mkTask t h r d req true false).
  { unfold s1. rewrite taskAt_createTask_commit.
    rewrite decide_True by reflexivity. reflexivity. }
  (* registerWorker *)
  rewrite (after_of_transact _ _ _ _ _ (registerWorker_succeeds (mkEnv w now2) s1 Hun)).
  set (s2 := registerWorker_commit (mkEnv w now2) s1).
  assert (H2 : workerAt s2 w = mkWorker w 0 0).
  { unfold s2. rewrite workerAt_registerWorker_commit.
    rewrite decide_True by reflexivity. reflexivity. }
  (* assignTask *)
  assert (Hassign : transact (mkEnv w now3) (AssignTask k) s2
                    = (assignTask_commit (mkEnv w now3) k s2, None)).
  { apply assignTask_succeeds.
    - change (taskAt s2 k) with (taskAt s1 k). rewrite H1. exact Ht.
    - change (taskAt s2 k) with (taskAt s1 k). rewrite H1. reflexivity.
    - exact Hnoas.
    - cbn [msg_sender]. rewrite H2. exact Hw. }
  rewrite (after_of_transact _ _ _ _ _ Hassign).
  set (s3 := assignTask_commit (mkEnv w now3) k s2).
  assert (H3 : assigneeOf s3 k = w).
  { unfold s3. rewrite assigneeOf_assignTask_commit.
    rewrite decide_True by reflexivity. reflexivity. }
  (* submitTaskResult *)
  assert (Hsubmit : transact (mkEnv w now4) (SubmitTaskResult k res prf) s3
                    = (submitTaskResult_commit (mkEnv w now4) k res s3, None)).
  { apply submitTaskResult_succeeds; cbn [msg_sender block_timestamp];
      change (taskAt s3 k) with (taskAt s1 k);
      change (workerAt s3 w) with (workerAt s2 w);
      rewrite ?H1, ?H2; cbn [title isCompleted deadline encryptedData
                                completedTasks reputation];
      try assumption; try reflexivity; unfold MAX_UINT256; lia. }
  rewrite (after_of_transact _ _ _ _ _ Hsubmit).
  set (s4 := submitTaskResult_commit (mkEnv w now4) k res s3).
  assert (H4 : taskAt s4 k = mkTask t h r d req false true).
  { unfold s4. rewrite taskAt_submitTaskResult_commit.
    rewrite decide_True by reflexivity.
    change (taskAt s3 k) with (taskAt s1 k). rewrite H1. reflexivity. }
  assert (H5 : workerAt s4 w = mkWorker w 10 1).
  { unfold s4. rewrite workerAt_submitTaskResult_commit.
    rewrite decide_True by reflexivity. cbn [msg_sender].
    change (workerAt s3 w) with (workerAt s2 w). rewrite H2. reflexivity. }
  split; [|split; [|split]].
  - unfold view. rewrite getTask_eq, H4. cbn [title].
    apply length_pos_iff_nonempty in Ht. rewrite Ht. reflexivity.
  - unfold view. rewrite getWorker_eq, H5. cbn [workerAddress].
    destruct (w =? 0) eqn:E; [apply Z.eqb_eq in E; contradiction | reflexivity].
  - exact H3.
  - unfold s4; cbn [log submitTaskResult_commit msg_sender].
    change (taskAt s3 k) with (taskAt s1 k). rewrite H1. cbn [encryptedData].
    unfold s3, s2, s1; cbn [log assignTask_commit registerWorker_commit
      createTask_commit msg_sender].
    rewrite <- !app_assoc. reflexivity.
Qed.

Lemma create_register_assign_submit_witness :
  view (getTask "t2")
    (@run (kms clear42)
       [ (mkEnv requester1 5000, CreateTask "t2" "Count cars" 11 proof1 50 9999);
         (mkEnv w2 5001, RegisterWorker);
         (mkEnv w2 5002, AssignTask "t2");
         (mkEnv w2 9999, SubmitTaskResult "t2" clear42 proof1) ] completed)
  = inl ("Count cars"%string, 50, 9999, requester1, false, true).
Proof.
  refine (proj1 (create_register_assign_submit (kms clear42) completed "t2"
                   "Count cars" 11 proof1 50 9999 11 requester1 w2 clear42 proof1
                   5000 5001 5002 9999 _ _ _ _ _ _ _ _ _)).
  - unfold completed, assigned.
    apply reachable_step, reachable_run, reachable_initial.
  - vm_compute. reflexivity.
  - discriminate.
  - vm_compute. reflexivity.
  - vm_compute. reflexivity.
  - vm_compute. discriminate.
  - vm_compute. reflexivity.
  - vm_compute. reflexivity.
  - vm_compute. discriminate.
Defined.

(** ** What a transaction does not touch *)

(** A transaction, successful or not, changes no task and no assignment
    under a key other than the one it names, and no worker record other
    than the sender's. *)
Theorem transaction_frame (fhe : FHE) env c s :
  (forall k, keyOf c <> Some k ->
     taskAt (after env c s) k = taskAt s k /\
     assigneeOf (after env c s) k = assigneeOf s k) /\
  (forall a, a <> msg_sender env -> workerAt (after env c s) a = workerAt s a).
Proof.
  destruct (after_cases env c s) as [->|Hc]; [split; intros; auto|].
  split.
  - intros k Hk. step_cases Hc; autorewrite with commit; cbn [keyOf] in Hk;
      try (split; reflexivity).
    + destruct (decide (k0 = k)); [congruence | split; reflexivity].
    + destruct (decide (k0 = k)); [congruence | split; reflexivity].
    + destruct (decide (k0 = k)); [congruence | split; reflexivity].
  - intros a Ha. step_cases Hc; autorewrite with commit; try reflexivity.
    + destruct (decide (msg_sender env = a)); [congruence | reflexivity].
    + destruct (decide (msg_sender env = a)); [congruence | reflexivity].
Qed.

Lemma transaction_frame_witness :
  taskAt (@after (kms clear42) submit_env (SubmitTaskResult t1 clear42 proof1) assigned)
    "t2" = taskAt assigned "t2" /\
  workerAt (@after (kms clear42) submit_env (SubmitTaskResult t1 clear42 proof1) assigned)
    w2 = workerAt assigned w2.
Proof.
  destruct (transaction_frame (kms clear42) submit_env
              (SubmitTaskResult t1 clear42 proof1) assigned) as [Hk Hw].
  split.
  - apply Hk. cbn. discriminate.
  - apply Hw. vm_compute. discriminate.
Defined.

(** ** Outcomes of [createTask] *)

(** [createTask] succeeds exactly when the key has no titled task and the
    library gives an initialized handle for the input.  It fails with
    "Task already exists" exactly when the key has a titled task, whatever
    the input; on a free key it fails with the library's revert when the
    input proof is rejected and with "Invalid encrypted input" when the
    handle is not initialized. *)
Theorem createTask_outcomes (fhe : FHE) env k t e p r d s :
  (outcome env (CreateTask k t e p r d) s = None <->
   title (taskAt s k) = EmptyString /\
   exists h, fromExternal (msg_sender env) e p = Some h /\ isInitialized h = true) /\
  (outcome env (CreateTask k t e p r d) s = Some TaskAlreadyExists <->
   title (taskAt s k) <> EmptyString) /\
  (outcome env (CreateTask k t e p r d) s = Some InputVerificationReverted <->
   title (taskAt s k) = EmptyString /\ fromExternal (msg_sender env) e p = None) /\
  (outcome env (CreateTask k t e p r d) s = Some InvalidEncryptedInput <->
   title (taskAt s k) = EmptyString /\
   exists h, fromExternal (msg_sender env) e p = Some h /\ isInitialized h = false).
Proof.
  unfold outcome, transact; cbn [dispatch]. rewrite createTask_eq.
  destruct (String.length _ =? 0)%nat eqn:Hl.
  - apply length_zero_iff_empty in Hl.
    destruct (fromExternal _ _ _) as [h|] eqn:Hh.
    + destruct (isInitialized h) eqn:Hi; cbn [snd]; repeat split;
        try discriminate; try congruence; eauto;
        try (intros (_ & h' & [= <-] & Hi'); congruence);
        try (intros (_ & [=])).
    + cbn [snd]. repeat split; try discriminate; try congruence;
        try (intros (_ & h' & [=] & _)).
  - assert (Hne : title (taskAt s k) <> EmptyString).
    { intros E. apply length_zero_iff_empty in E. congruence. }
    cbn [snd]. repeat split; try discriminate; try congruence;
      try (intros (E & _); contradiction).
Qed.

Lemma createTask_outcomes_witness :
  @outcome (kms clear42) (mkEnv w2 1500) (CreateTask "t2" "Count cars" 0 proof1 50 9999)
    completed = Some InvalidEncryptedInput /\
  @outcome (kms clear42) (mkEnv w2 1500) (CreateTask "t2" "Count cars" 11 [] 50 9999)
    completed = Some InputVerificationReverted.
Proof.
  split.
  - apply (proj2 (proj2 (proj2 (createTask_outcomes (kms clear42) (mkEnv w2 1500) "t2"
                                  "Count cars" 0 proof1 50 9999 completed)))).
    split; [vm_compute; reflexivity|]. exists 0. split; vm_compute; reflexivity.
  - apply (proj1 (proj2 (proj2 (createTask_outcomes (kms clear42) (mkEnv w2 1500) "t2"
                                  "Count cars" 11 [] 50 9999 completed)))).
    split; vm_compute; reflexivity.
Defined.
